(** * Yukon power modules: current-limit selection and monitor aggregation

    A shallow embedding of [lib/pimoroni_yukon/modules/dual_motor.py] and
    [lib/pimoroni_yukon/modules/quad_servo_reg.py].

    Numbers.  The firmware computes with Python floats.  Finite floats are
    idealised as exact rationals ([Q]); the two sentinels [float('-inf')]
    and [float('inf')] used by [clear_readings] are kept as separate
    constructors of [num].  Comparisons are the boolean tests the code
    performs, so nothing below relies on rounding.

    Effects.  Methods mutate [self], may raise and may log.  They are
    written in a small monad [M S A]: a state transformer on the module
    object that returns either a value or the exception raised, together
    with the log lines the call emitted.  The state component of a raising
    call is the object as the exception leaves it. *)

From Stdlib Require Import QArith ZArith List Sorted String Bool Lia Lqa.
Import ListNotations.

Local Open Scope Q_scope.

(** ** Python-level primitives *)

(** [a > b] and [a <= b] on finite floats. *)
Definition Qgtb (a b : Q) : bool := negb (Qle_bool a b).
Definition Qleb (a b : Q) : bool := Qle_bool a b.

(** A float that may be one of the two infinities. *)
Inductive num : Type :=
| NegInf
| Fin (q : Q)
| PosInf.

(** [a > b] and [a < b] on floats with infinities. *)
Definition num_gtb (a b : num) : bool :=
  match a, b with
  | NegInf, _ => false
  | Fin _, NegInf => true
  | Fin x, Fin y => Qgtb x y
  | Fin _, PosInf => false
  | PosInf, PosInf => false
  | PosInf, _ => true
  end.

Definition num_ltb (a b : num) : bool := num_gtb b a.

(** The builtins [max(a, b)] and [min(a, b)]: the first argument is kept
    unless the second is strictly greater (resp. strictly smaller). *)
Definition py_max (a b : num) : num := if num_gtb b a then b else a.
Definition py_min (a b : num) : num := if num_ltb b a then b else a.

(** Pieces of a message: literal text and formatted floats (f-strings). *)
Inductive fragment : Type :=
| Txt (s : string)
| Flt (q : Q).

Definition message : Type := list fragment.

(** The exceptions the two modules raise.  [KeyError] is what a failed
    dictionary subscript raises; [UserError] stands for whatever a user
    supplied monitor callback may raise. *)
Inductive exn : Type :=
| RuntimeError (msg : message)
| FaultError (msg : message)
| OverTemperatureError (msg : message)
| KeyError
| UserError (msg : message).

(** [pimoroni_yukon.logging]. *)
Inductive log_line : Type :=
| LogInfo (msg : message)
| LogWarn (msg : message).

(** ** The method monad *)

Inductive outcome (A : Type) : Type :=
| Returned (a : A)
| Raised (e : exn).

Arguments Returned {A} a.
Arguments Raised {A} e.

Definition M (S A : Type) : Type := S -> outcome A * S * list log_line.

Definition ret {S A} (a : A) : M S A := fun s => (Returned a, s, []).

Definition raise {S A} (e : exn) : M S A := fun s => (Raised e, s, []).

Definition bind {S A B} (m : M S A) (k : A -> M S B) : M S B :=
  fun s =>
    match m s with
    | (Returned a, s1, l1) =>
        match k a s1 with
        | (r, s2, l2) => (r, s2, l1 ++ l2)
        end
    | (Raised e, s1, l1) => (Raised e, s1, l1)
    end.

Definition gets {S A} (f : S -> A) : M S A := fun s => (Returned (f s), s, []).

Definition modify {S} (f : S -> S) : M S unit := fun s => (Returned tt, f s, []).

Definition emit {S} (l : log_line) : M S unit := fun s => (Returned tt, s, [l]).

Declare Scope method_scope.
Delimit Scope method_scope with method.

Notation "x <- m ;; k" := (bind m (fun x => k))
  (at level 61, m at next level, right associativity) : method_scope.
Notation "m ;; k" := (bind m (fun _ => k))
  (at level 61, right associativity) : method_scope.

Local Open Scope method_scope.

(** What a call leaves behind. *)
Definition result_of {S A} (r : outcome A * S * list log_line) : outcome A := fst (fst r).
Definition state_of {S A} (r : outcome A * S * list log_line) : S := snd (fst r).
Definition log_of {S A} (r : outcome A * S * list log_line) : list log_line := snd r.

Definition returns {S A} (r : outcome A * S * list log_line) : bool :=
  match result_of r with
  | Returned _ => true
  | Raised _ => false
  end.

(** ** Pins ([machine.Pin]) *)

Inductive PinMode : Type := IN | OUT.

Record Pin : Type := mkPin { mode : PinMode; level : bool }.

(** [pin.init(Pin.IN)], [pin.init(Pin.OUT, value=v)], [pin.value(v)] and
    [pin.value()]. *)
Definition Pin_init_in (p : Pin) : Pin := mkPin IN (level p).
Definition Pin_init_out (v : bool) (p : Pin) : Pin := mkPin OUT v.
Definition Pin_set_value (v : bool) (p : Pin) : Pin := mkPin (mode p) v.
Definition Pin_value (p : Pin) : bool := level p.

(** ** Readings ([OrderedDict] of named fields) *)

Inductive value : Type :=
| VBool (b : bool)
| VNum (n : num).

Definition readings : Type := list (string * value).

Fixpoint reading (name : string) (r : readings) : option value :=
  match r with
  | [] => None
  | (k, v) :: rest => if String.eqb k name then Some v else reading name rest
  end.

(** The user monitor callback: called with the condition and the
    temperature; it returns nothing and may raise. *)
Definition callback : Type := bool -> Q -> option exn.

Definition run_callback {S} (cb : option callback) (c : bool) (t : Q) : M S unit :=
  match cb with
  | None => ret tt
  | Some f =>
      match f c t with
      | None => ret tt
      | Some e => raise e
      end
  end.

(** ** [DualMotorModule] (dual_motor.py) *)

Module DualMotor.

Definition FAULT_THRESHOLD : Q := 1 # 10.
Definition TEMPERATURE_THRESHOLD : Q := 70.

(** The current (in amps) associated with each limit. *)
Definition CURRENT_LIMIT_1 : Q := 161 # 1000.
Definition CURRENT_LIMIT_2 : Q := 251 # 1000.
Definition CURRENT_LIMIT_3 : Q := 444 # 1000.
Definition CURRENT_LIMIT_4 : Q := 786 # 1000.
Definition CURRENT_LIMIT_5 : Q := 1143 # 1000.
Definition CURRENT_LIMIT_6 : Q := 1611 # 1000.
Definition CURRENT_LIMIT_7 : Q := 1890 # 1000.
Definition CURRENT_LIMIT_8 : Q := 2153 # 1000.
Definition CURRENT_LIMIT_9 : Q := 2236 # 1000.
Definition MIN_CURRENT_LIMIT : Q := CURRENT_LIMIT_1.
Definition DEFAULT_CURRENT_LIMIT : Q := CURRENT_LIMIT_3.
Definition MAX_CURRENT_LIMIT : Q := CURRENT_LIMIT_9.

(** A pair of pin states: [-1] is input (high impedance), [0] drives the
    pin low and [1] drives it high. *)
Definition pin_states : Type := (Z * Z)%type.

(** [self.__current_limit_states]: the ordered dictionary, as the list of
    its items in the order of the literal. *)
Definition current_limit_states : list (Q * pin_states) :=
  [ (CURRENT_LIMIT_1, (0, 0)%Z);
    (CURRENT_LIMIT_2, (-1, 0)%Z);
    (CURRENT_LIMIT_3, (0, -1)%Z);
    (CURRENT_LIMIT_4, (1, 0)%Z);
    (CURRENT_LIMIT_5, (-1, -1)%Z);
    (CURRENT_LIMIT_6, (0, 1)%Z);
    (CURRENT_LIMIT_7, (1, -1)%Z);
    (CURRENT_LIMIT_8, (-1, 1)%Z);
    (CURRENT_LIMIT_9, (1, 1)%Z) ].

(** [d[key]] on such a dictionary; keys are compared as numbers. *)
Fixpoint getitem {S V} (d : list (Q * V)) (key : Q) : M S V :=
  match d with
  | [] => raise KeyError
  | (k, v) :: rest => if Qeq_bool k key then ret v else getitem rest key
  end.

(** The [for limit, state in ...items()] loop with its [break]. *)
Fixpoint closest_below (items : list (Q * pin_states)) (amps : Q)
         (chosen : Q * pin_states) : Q * pin_states :=
  match items with
  | [] => chosen
  | (limit, state) :: rest =>
      if Qgtb limit amps then chosen
      else closest_below rest amps (limit, state)
  end.

(** The selection part of [set_current_limit]: from "Start with the
    lowest limit" to the end of the loop. *)
Definition select {S} (amps : Q) : M S (Q * pin_states) :=
  let chosen_limit := MIN_CURRENT_LIMIT in
  chosen_state <- getitem current_limit_states chosen_limit ;;
  ret (closest_below current_limit_states amps (chosen_limit, chosen_state)).

(** "An ascending order list of current limits": strictly ascending
    limits. *)
Definition ascending (items : list (Q * pin_states)) : Prop :=
  StronglySorted (fun e e' => fst e < fst e') items.

(** One analog sample: the value of [__read_adc1()] and the temperature
    [__read_adc2_as_temp()] computes (both belong to the base class). *)
Record sample : Type := mkSample { adc1 : Q; adc2_as_temp : Q }.

Record DualMotorModule : Type := mkModule {
  message_header : string;
  monitor_action_callback : option callback;
  current_limit : Q;
  motors_en : Pin;
  motors_vref1 : Pin;
  motors_vref2 : Pin;
  fault_triggered : bool;
  max_temperature : num;
  min_temperature : num;
  avg_temperature : Q;
  count_avg : Z
}.

Definition set_current_limit_field (v : Q) (s : DualMotorModule) :=
  mkModule (message_header s) (monitor_action_callback s) v (motors_en s)
           (motors_vref1 s) (motors_vref2 s) (fault_triggered s)
           (max_temperature s) (min_temperature s) (avg_temperature s) (count_avg s).
Definition set_motors_en (v : Pin) (s : DualMotorModule) :=
  mkModule (message_header s) (monitor_action_callback s) (current_limit s) v
           (motors_vref1 s) (motors_vref2 s) (fault_triggered s)
           (max_temperature s) (min_temperature s) (avg_temperature s) (count_avg s).
Definition set_motors_vref1 (v : Pin) (s : DualMotorModule) :=
  mkModule (message_header s) (monitor_action_callback s) (current_limit s) (motors_en s)
           v (motors_vref2 s) (fault_triggered s)
           (max_temperature s) (min_temperature s) (avg_temperature s) (count_avg s).
Definition set_motors_vref2 (v : Pin) (s : DualMotorModule) :=
  mkModule (message_header s) (monitor_action_callback s) (current_limit s) (motors_en s)
           (motors_vref1 s) v (fault_triggered s)
           (max_temperature s) (min_temperature s) (avg_temperature s) (count_avg s).
Definition set_fault_triggered (v : bool) (s : DualMotorModule) :=
  mkModule (message_header s) (monitor_action_callback s) (current_limit s) (motors_en s)
           (motors_vref1 s) (motors_vref2 s) v
           (max_temperature s) (min_temperature s) (avg_temperature s) (count_avg s).
Definition set_max_temperature (v : num) (s : DualMotorModule) :=
  mkModule (message_header s) (monitor_action_callback s) (current_limit s) (motors_en s)
           (motors_vref1 s) (motors_vref2 s) (fault_triggered s)
           v (min_temperature s) (avg_temperature s) (count_avg s).
Definition set_min_temperature (v : num) (s : DualMotorModule) :=
  mkModule (message_header s) (monitor_action_callback s) (current_limit s) (motors_en s)
           (motors_vref1 s) (motors_vref2 s) (fault_triggered s)
           (max_temperature s) v (avg_temperature s) (count_avg s).
Definition set_avg_temperature (v : Q) (s : DualMotorModule) :=
  mkModule (message_header s) (monitor_action_callback s) (current_limit s) (motors_en s)
           (motors_vref1 s) (motors_vref2 s) (fault_triggered s)
           (max_temperature s) (min_temperature s) v (count_avg s).
Definition set_count_avg (v : Z) (s : DualMotorModule) :=
  mkModule (message_header s) (monitor_action_callback s) (current_limit s) (motors_en s)
           (motors_vref1 s) (motors_vref2 s) (fault_triggered s)
           (max_temperature s) (min_temperature s) (avg_temperature s) v.

Definition enable : M DualMotorModule unit :=
  modify (fun s => set_motors_en (Pin_set_value true (motors_en s)) s).

Definition disable : M DualMotorModule unit :=
  modify (fun s => set_motors_en (Pin_set_value false (motors_en s)) s).

Definition is_enabled (s : DualMotorModule) : bool := Pin_value (motors_en s).

(** The three-way [if]/[elif]/[else] on one component of the chosen
    state. *)
Definition apply_state (c : Z) (p : Pin) : Pin :=
  if (c =? -1)%Z then Pin_init_in p
  else if (c =? 0)%Z then Pin_init_out false p
  else Pin_init_out true p.

Definition set_current_limit (amps : Q) : M DualMotorModule unit :=
  enabled <- gets is_enabled ;;
  if enabled then
    raise (RuntimeError [Txt "Cannot change current limit whilst motor driver is active"])
  else
    chosen <- select amps ;;
    let chosen_limit := fst chosen in
    let chosen_state := snd chosen in
    modify (fun s => set_motors_vref1 (apply_state (fst chosen_state) (motors_vref1 s)) s) ;;
    modify (fun s => set_motors_vref2 (apply_state (snd chosen_state) (motors_vref2 s)) s) ;;
    modify (set_current_limit_field chosen_limit) ;;
    h <- gets message_header ;;
    l <- gets current_limit ;;
    emit (LogInfo [Txt h; Txt "Current limit set to "; Flt l; Txt "A"]).

(** [reset], without the motor objects. *)
Definition reset : M DualMotorModule unit :=
  modify (fun s => set_motors_en (Pin_init_out false (motors_en s)) s) ;;
  l <- gets current_limit ;;
  set_current_limit l.

Definition read_fault (x : sample) : bool := Qleb (adc1 x) FAULT_THRESHOLD.

Definition read_temperature (x : sample) : Q := adc2_as_temp x.

Definition monitor (x : sample) : M DualMotorModule unit :=
  let fault := read_fault x in
  (if fault then
     h <- gets message_header ;;
     raise (FaultError [Txt h; Txt "Fault detected on motor driver! Turning off output"])
   else ret tt) ;;
  let temperature := read_temperature x in
  (if Qgtb temperature TEMPERATURE_THRESHOLD then
     h <- gets message_header ;;
     raise (OverTemperatureError
              [Txt h; Txt "Temperature of "; Flt temperature;
               Txt "°C exceeded the limit of "; Flt TEMPERATURE_THRESHOLD;
               Txt "°C! Turning off output"])
   else ret tt) ;;
  cb <- gets monitor_action_callback ;;
  run_callback cb fault temperature ;;
  modify (fun s => set_fault_triggered (fault_triggered s || fault) s) ;;
  modify (fun s => set_max_temperature (py_max (Fin temperature) (max_temperature s)) s) ;;
  modify (fun s => set_min_temperature (py_min (Fin temperature) (min_temperature s)) s) ;;
  modify (fun s => set_avg_temperature (avg_temperature s + temperature) s) ;;
  modify (fun s => set_count_avg (count_avg s + 1)%Z s).

Definition get_readings (s : DualMotorModule) : readings :=
  [ ("Fault"%string, VBool (fault_triggered s));
    ("T_max"%string, VNum (max_temperature s));
    ("T_min"%string, VNum (min_temperature s));
    ("T_avg"%string, VNum (Fin (avg_temperature s))) ].

Definition process_readings : M DualMotorModule unit :=
  c <- gets count_avg ;;
  if (c >? 0)%Z then
    modify (fun s => set_avg_temperature (avg_temperature s / inject_Z (count_avg s)) s) ;;
    modify (set_count_avg 0%Z)
  else ret tt.

Definition clear_readings : M DualMotorModule unit :=
  modify (set_fault_triggered false) ;;
  modify (set_max_temperature NegInf) ;;
  modify (set_min_temperature PosInf) ;;
  modify (set_avg_temperature 0) ;;
  modify (set_count_avg 0%Z).

(** The entry the loop of [set_current_limit] ends on, given that the
    subscript for the lowest limit yields the first entry's state. *)
Definition chosen (amps : Q) : Q * pin_states :=
  closest_below current_limit_states amps (CURRENT_LIMIT_1, (0, 0)%Z).

(** The object after the five assignments that end [monitor]. *)
Definition aggregate (fault : bool) (temperature : Q) (s : DualMotorModule) : DualMotorModule :=
  mkModule (message_header s) (monitor_action_callback s) (current_limit s) (motors_en s)
           (motors_vref1 s) (motors_vref2 s)
           (fault_triggered s || fault)
           (py_max (Fin temperature) (max_temperature s))
           (py_min (Fin temperature) (min_temperature s))
           (avg_temperature s + temperature)
           (count_avg s + 1)%Z.

(** What the installed callback, if any, raises on a sample. *)
Definition callback_raises (s : DualMotorModule) (x : sample) : option exn :=
  match monitor_action_callback s with
  | None => None
  | Some f => f (read_fault x) (read_temperature x)
  end.

(** A cycle with nothing to report: no fault, a temperature at or below
    the threshold, and a callback (if any) that returns. *)
Definition quiet (s : DualMotorModule) (x : sample) : Prop :=
  read_fault x = false
  /\ read_temperature x <= TEMPERATURE_THRESHOLD
  /\ callback_raises s x = None.

End DualMotor.

(** ** [QuadServoRegModule] (quad_servo_reg.py) *)

Module QuadServoReg.

Definition TEMPERATURE_THRESHOLD : Q := 80.

(** One sample: the level of the power-good input pin and the
    temperature [__read_adc2_as_temp()] computes. *)
Record sample : Type := mkSample { power_good_value : bool; adc2_as_temp : Q }.

Record QuadServoRegModule : Type := mkModule {
  message_header : string;
  monitor_action_callback : option callback;
  halt_on_not_pgood : bool;
  last_pgood : bool;
  power_en : Pin;
  power_good_throughout : bool;
  max_temperature : num;
  min_temperature : num;
  avg_temperature : Q;
  count_avg : Z
}.

Definition set_last_pgood (v : bool) (s : QuadServoRegModule) :=
  mkModule (message_header s) (monitor_action_callback s) (halt_on_not_pgood s) v
           (power_en s) (power_good_throughout s)
           (max_temperature s) (min_temperature s) (avg_temperature s) (count_avg s).
Definition set_power_en (v : Pin) (s : QuadServoRegModule) :=
  mkModule (message_header s) (monitor_action_callback s) (halt_on_not_pgood s) (last_pgood s)
           v (power_good_throughout s)
           (max_temperature s) (min_temperature s) (avg_temperature s) (count_avg s).
Definition set_power_good_throughout (v : bool) (s : QuadServoRegModule) :=
  mkModule (message_header s) (monitor_action_callback s) (halt_on_not_pgood s) (last_pgood s)
           (power_en s) v
           (max_temperature s) (min_temperature s) (avg_temperature s) (count_avg s).
Definition set_max_temperature (v : num) (s : QuadServoRegModule) :=
  mkModule (message_header s) (monitor_action_callback s) (halt_on_not_pgood s) (last_pgood s)
           (power_en s) (power_good_throughout s)
           v (min_temperature s) (avg_temperature s) (count_avg s).
Definition set_min_temperature (v : num) (s : QuadServoRegModule) :=
  mkModule (message_header s) (monitor_action_callback s) (halt_on_not_pgood s) (last_pgood s)
           (power_en s) (power_good_throughout s)
           (max_temperature s) v (avg_temperature s) (count_avg s).
Definition set_avg_temperature (v : Q) (s : QuadServoRegModule) :=
  mkModule (message_header s) (monitor_action_callback s) (halt_on_not_pgood s) (last_pgood s)
           (power_en s) (power_good_throughout s)
           (max_temperature s) (min_temperature s) v (count_avg s).
Definition set_count_avg (v : Z) (s : QuadServoRegModule) :=
  mkModule (message_header s) (monitor_action_callback s) (halt_on_not_pgood s) (last_pgood s)
           (power_en s) (power_good_throughout s)
           (max_temperature s) (min_temperature s) (avg_temperature s) v.

Definition enable : M QuadServoRegModule unit :=
  modify (fun s => set_power_en (Pin_set_value true (power_en s)) s).

Definition disable : M QuadServoRegModule unit :=
  modify (fun s => set_power_en (Pin_set_value false (power_en s)) s).

Definition is_enabled (s : QuadServoRegModule) : bool := Pin_value (power_en s).

Definition read_power_good (x : sample) : bool := power_good_value x.

Definition read_temperature (x : sample) : Q := adc2_as_temp x.

Definition monitor (x : sample) : M QuadServoRegModule unit :=
  let pgood := read_power_good x in
  (if negb pgood then
     halt <- gets halt_on_not_pgood ;;
     if halt then
       h <- gets message_header ;;
       raise (FaultError [Txt h; Txt "Power is not good! Turning off output"])
     else ret tt
   else ret tt) ;;
  let temperature := read_temperature x in
  (if Qgtb temperature TEMPERATURE_THRESHOLD then
     h <- gets message_header ;;
     raise (OverTemperatureError
              [Txt h; Txt "Temperature of "; Flt temperature;
               Txt "°C exceeded the limit of "; Flt TEMPERATURE_THRESHOLD;
               Txt "°C! Turning off output"])
   else ret tt) ;;
  last <- gets last_pgood ;;
  (if last && negb pgood then
     h <- gets message_header ;;
     emit (LogWarn [Txt h; Txt "Power is not good"])
   else if negb last && pgood then
     h <- gets message_header ;;
     emit (LogWarn [Txt h; Txt "Power is good"])
   else ret tt) ;;
  cb <- gets monitor_action_callback ;;
  run_callback cb pgood temperature ;;
  modify (set_last_pgood pgood) ;;
  modify (fun s => set_power_good_throughout (power_good_throughout s && pgood) s) ;;
  modify (fun s => set_max_temperature (py_max (Fin temperature) (max_temperature s)) s) ;;
  modify (fun s => set_min_temperature (py_min (Fin temperature) (min_temperature s)) s) ;;
  modify (fun s => set_avg_temperature (avg_temperature s + temperature) s) ;;
  modify (fun s => set_count_avg (count_avg s + 1)%Z s).

Definition get_readings (s : QuadServoRegModule) : readings :=
  [ ("PGood"%string, VBool (power_good_throughout s));
    ("T_max"%string, VNum (max_temperature s));
    ("T_min"%string, VNum (min_temperature s));
    ("T_avg"%string, VNum (Fin (avg_temperature s))) ].

Definition process_readings : M QuadServoRegModule unit :=
  c <- gets count_avg ;;
  if (c >? 0)%Z then
    modify (fun s => set_avg_temperature (avg_temperature s / inject_Z (count_avg s)) s) ;;
    modify (set_count_avg 0%Z)
  else ret tt.

Definition clear_readings : M QuadServoRegModule unit :=
  modify (set_power_good_throughout true) ;;
  modify (set_max_temperature NegInf) ;;
  modify (set_min_temperature PosInf) ;;
  modify (set_avg_temperature 0) ;;
  modify (set_count_avg 0%Z).

(** The object after the six assignments that end [monitor]. *)
Definition aggregate (pgood : bool) (temperature : Q) (s : QuadServoRegModule)
  : QuadServoRegModule :=
  mkModule (message_header s) (monitor_action_callback s) (halt_on_not_pgood s)
           pgood (power_en s)
           (power_good_throughout s && pgood)
           (py_max (Fin temperature) (max_temperature s))
           (py_min (Fin temperature) (min_temperature s))
           (avg_temperature s + temperature)
           (count_avg s + 1)%Z.

(** What the installed callback, if any, raises on a sample. *)
Definition callback_raises (s : QuadServoRegModule) (x : sample) : option exn :=
  match monitor_action_callback s with
  | None => None
  | Some f => f (read_power_good x) (read_temperature x)
  end.

(** The two warnings of [monitor]. *)
Definition power_warning (h : string) (pgood : bool) : log_line :=
  if pgood then LogWarn [Txt h; Txt "Power is good"]
  else LogWarn [Txt h; Txt "Power is not good"].

(** The observations at which the condition changes: the entries of
    [obs] that differ from their predecessor, [last] being the
    predecessor of the first. *)
Fixpoint transitions (last : bool) (obs : list bool) : list bool :=
  match obs with
  | [] => []
  | b :: rest =>
      if Bool.eqb last b then transitions b rest else b :: transitions b rest
  end.

(** A cycle with nothing fatal: power good (or not halting on it), a
    temperature at or below the threshold, and a callback (if any) that
    returns. *)
Definition quiet (s : QuadServoRegModule) (x : sample) : Prop :=
  negb (read_power_good x) && halt_on_not_pgood s = false
  /\ read_temperature x <= TEMPERATURE_THRESHOLD
  /\ callback_raises s x = None.

(** The part of the object no call changes. *)
Definition same_setup (s s' : QuadServoRegModule) : Prop :=
  message_header s' = message_header s
  /\ monitor_action_callback s' = monitor_action_callback s
  /\ halt_on_not_pgood s' = halt_on_not_pgood s.

End QuadServoReg.

(** ** The interface both modules implement ([YukonModule]) *)

Class YukonModule (S X : Type) : Type := {
  monitor : X -> M S unit;
  get_readings : S -> readings;
  process_readings : M S unit;
  clear_readings : M S unit
}.

#[export] Instance DualMotor_module : YukonModule DualMotor.DualMotorModule DualMotor.sample := {
  monitor := DualMotor.monitor;
  get_readings := DualMotor.get_readings;
  process_readings := DualMotor.process_readings;
  clear_readings := DualMotor.clear_readings
}.

#[export] Instance QuadServoReg_module :
  YukonModule QuadServoReg.QuadServoRegModule QuadServoReg.sample := {
  monitor := QuadServoReg.monitor;
  get_readings := QuadServoReg.get_readings;
  process_readings := QuadServoReg.process_readings;
  clear_readings := QuadServoReg.clear_readings
}.

(** ** The owner of a module

    What the driver of a module does with it during one interval: it calls
    [monitor] with the samples of successive cycles, [process_readings] and
    [get_readings], in any order.  A call that raises leaves the object as
    it is at the [raise]; the owner catches the exception and carries on. *)

Inductive call (X : Type) : Type :=
| Monitor (x : X)
| ProcessReadings
| GetReadings.

Arguments Monitor {X} x.
Arguments ProcessReadings {X}.
Arguments GetReadings {X}.

Definition perform {S X} `{YukonModule S X} (c : call X) : M S unit :=
  match c with
  | Monitor x => monitor x
  | ProcessReadings => process_readings
  | GetReadings => gets get_readings ;; ret tt
  end.

(** The object after a sequence of calls. *)
Fixpoint after {S X} `{YukonModule S X} (cs : list (call X)) (s : S) : S :=
  match cs with
  | [] => s
  | c :: rest => after rest (state_of (perform c s))
  end.

(** The log lines a sequence of calls emits. *)
Fixpoint logged {S X} `{YukonModule S X} (cs : list (call X)) (s : S) : list log_line :=
  match cs with
  | [] => []
  | c :: rest => log_of (perform c s) ++ logged rest (state_of (perform c s))
  end.

(** The object after [monitor] has run on each sample in turn. *)
Definition monitor_each {S X} `{YukonModule S X} (xs : list X) (s : S) : S :=
  after (map Monitor xs) s.

(** Every call of the sequence returns (none raises). *)
Fixpoint all_return {S X} `{YukonModule S X} (cs : list (call X)) (s : S) : bool :=
  match cs with
  | [] => true
  | c :: rest => returns (perform c s) && all_return rest (state_of (perform c s))
  end.

(** A call that leaves the power-good aggregate standing: anything but a
    [monitor] cycle that returned having observed power not good.  Whether
    [monitor] returns on a sample is decided by the sample,
    [halt_on_not_pgood] and the callback, which no call changes, so it is
    read off the object [s] the interval started from. *)
Definition power_held (s : QuadServoReg.QuadServoRegModule) (c : call QuadServoReg.sample)
  : bool :=
  match c with
  | Monitor x =>
      implb (returns (QuadServoReg.monitor x s)) (QuadServoReg.read_power_good x)
  | _ => true
  end.

(** The two fatal errors of [monitor]. *)
Definition fatal (e : exn) : Prop :=
  match e with
  | FaultError _ | OverTemperatureError _ => True
  | _ => False
  end.

(** ** Vocabulary for the statistics *)

(** The four numeric aggregates both modules keep, and what one completed
    cycle does to them. *)
Record statistics : Type := mkStats {
  stat_max : num;
  stat_min : num;
  stat_sum : Q;
  stat_count : Z
}.

Definition accumulate (a : statistics) (t : Q) : statistics :=
  mkStats (py_max (Fin t) (stat_max a))
          (py_min (Fin t) (stat_min a))
          (stat_sum a + t)
          (stat_count a + 1)%Z.

(** The extrema as [monitor] extends them from the cleared values. *)
Definition running_max (ts : list Q) : num :=
  fold_left (fun m t => py_max (Fin t) m) ts NegInf.

Definition running_min (ts : list Q) : num :=
  fold_left (fun m t => py_min (Fin t) m) ts PosInf.

Definition DualMotor_statistics (s : DualMotor.DualMotorModule) : statistics :=
  mkStats (DualMotor.max_temperature s) (DualMotor.min_temperature s)
          (DualMotor.avg_temperature s) (DualMotor.count_avg s).

Definition QuadServoReg_statistics (s : QuadServoReg.QuadServoRegModule) : statistics :=
  mkStats (QuadServoReg.max_temperature s) (QuadServoReg.min_temperature s)
          (QuadServoReg.avg_temperature s) (QuadServoReg.count_avg s).

(** [t1 + ... + tN], summed from the left starting at [0] as the running
    sum is. *)
Definition sum_of (ts : list Q) : Q := fold_left Qplus ts 0.

Definition is_maximum (m : Q) (ts : list Q) : Prop :=
  In m ts /\ forall t, In t ts -> t <= m.

Definition is_minimum (m : Q) (ts : list Q) : Prop :=
  In m ts /\ forall t, In t ts -> m <= t.

(** What [get_readings] has to show for the temperatures [ts] of an
    interval: their average, their maximum and their minimum. *)
Definition reports_statistics (r : readings) (ts : list Q) : Prop :=
  reading "T_avg" r = Some (VNum (Fin (sum_of ts / inject_Z (Z.of_nat (List.length ts)))))
  /\ (exists m, reading "T_max" r = Some (VNum (Fin m)) /\ is_maximum m ts)
  /\ (exists m, reading "T_min" r = Some (VNum (Fin m)) /\ is_minimum m ts).

(** ** Sample objects and samples *)

(** A dual motor module as [__init__] and [reset] leave it: driver
    disabled, default current limit, no callback. *)
Definition dual_motor_idle : DualMotor.DualMotorModule :=
  DualMotor.mkModule "[Slot1 'Dual Motor'] " None DualMotor.DEFAULT_CURRENT_LIMIT
    (mkPin OUT false) (mkPin OUT false) (mkPin IN false)
    false NegInf PosInf 0 0%Z.

(** The same module with its driver enabled. *)
Definition dual_motor_active : DualMotor.DualMotorModule :=
  DualMotor.set_motors_en (mkPin OUT true) dual_motor_idle.

(** A quad servo module at the start of an interval. *)
Definition quad_servo_idle (halt : bool) : QuadServoReg.QuadServoRegModule :=
  QuadServoReg.mkModule "[Slot2 'Quad Servo Regulated'] " None halt false
    (mkPin OUT false) true NegInf PosInf 0 0%Z.

(** Current sense at zero (a fault) at 20 degrees, and a healthy sample at
    the given temperature. *)
Definition dual_fault_sample : DualMotor.sample := DualMotor.mkSample 0 20.
Definition dual_sample (t : Q) : DualMotor.sample := DualMotor.mkSample (1 # 2) t.

Definition quad_sample (pgood : bool) (t : Q) : QuadServoReg.sample :=
  QuadServoReg.mkSample pgood t.

(** ** Module identification

    [is_module] of the two classes.  The levels [ADC_HIGH], [IO_LOW] and
    [IO_HIGH] are imported from [modules/common.py]; they are parameters
    here, together with the types of ADC and IO levels and the two
    comparisons made on them ([==] on ADC levels, [is] on IO levels). *)
Section Identification.

Variables adc io : Type.
Variable adc_eq : adc -> adc -> bool.
Variable io_is : io -> io -> bool.
Variable ADC_HIGH : adc.
Variables IO_LOW IO_HIGH : io.

Definition DualMotor_is_module (adc1_level adc2_level : adc) (slow1 slow2 slow3 : io) : bool :=
  adc_eq adc1_level ADC_HIGH && io_is slow1 IO_LOW && io_is slow2 IO_LOW
  && io_is slow3 IO_HIGH.

Definition QuadServoReg_is_module (adc1_level adc2_level : adc) (slow1 slow2 slow3 : io)
  : bool :=
  adc_eq adc1_level ADC_HIGH && io_is slow1 IO_LOW && io_is slow2 IO_HIGH.

End Identification.

(** ** The motor objects of the dual motor module

    [reset] in full.  [Motor] is the class of the [motor] library and
    [Motor_disable] its method [disable]; both are parameters.  The list
    [motors] is the attribute [self.motors] as [initialise] leaves it when
    the module was built with [init_motors]. *)
Section Motors.

Variable Motor : Type.
Variable Motor_disable : Motor -> Motor.

Record DualMotorWithMotors : Type := mkWithMotors {
  module : DualMotor.DualMotorModule;
  init_motors : bool;
  motors : list Motor
}.

(** A method of the module proper, run on the module with its motors. *)
Definition on_module {A} (m : M DualMotor.DualMotorModule A) : M DualMotorWithMotors A :=
  fun d =>
    match m (module d) with
    | (r, s, l) => (r, mkWithMotors s (init_motors d) (motors d), l)
    end.

Definition DualMotor_reset : M DualMotorWithMotors unit :=
  init <- gets init_motors ;;
  (if init then
     modify (fun d => mkWithMotors (module d) (init_motors d)
                        (map Motor_disable (motors d)))
   else ret tt) ;;
  on_module
    (modify (fun s => DualMotor.set_motors_en
                        (Pin_init_out false (DualMotor.motors_en s)) s)) ;;
  l <- on_module (gets DualMotor.current_limit) ;;
  on_module (DualMotor.set_current_limit l).

End Motors.

Arguments mkWithMotors {Motor} module init_motors motors.
Arguments module {Motor} d.
Arguments init_motors {Motor} d.
Arguments motors {Motor} d.

(** ** Further vocabulary *)

(** No two neighbours of [prev :: bs] are equal. *)
Fixpoint alternating (prev : bool) (bs : list bool) : bool :=
  match bs with
  | [] => true
  | b :: rest => negb (Bool.eqb prev b) && alternating b rest
  end.

(** The calls of a run that return when made on [s]. *)
Definition returned_calls {S X} `{YukonModule S X} (s : S) (cs : list (call X))
  : list (call X) :=
  filter (fun c => returns (perform c s)) cs.

(** A quad servo module that last saw power good and whose callback
    refuses temperatures above 60. *)
Definition quad_servo_watched : QuadServoReg.QuadServoRegModule :=
  QuadServoReg.mkModule "[Slot2 'Quad Servo Regulated'] "
    (Some (fun _ t => if Qgtb t 60 then Some (UserError [Txt "too warm"]) else None))
    false true (mkPin OUT true) true NegInf PosInf 0 0%Z.

(** A dual motor module whose callback refuses temperatures above 60. *)
Definition dual_motor_watched : DualMotor.DualMotorModule :=
  DualMotor.mkModule "[Slot1 'Dual Motor'] "
    (Some (fun _ t => if Qgtb t 60 then Some (UserError [Txt "too warm"]) else None))
    DualMotor.DEFAULT_CURRENT_LIMIT
    (mkPin OUT true) (mkPin OUT false) (mkPin IN false)
    false NegInf PosInf 0 0%Z.

(** * Properties *)

(** Linear arithmetic over the named limits. *)
Ltac limits_lra :=
  unfold DualMotor.MAX_CURRENT_LIMIT, DualMotor.MIN_CURRENT_LIMIT in *;
  cbn [fst snd] in *; lra.

(** ** Comparisons *)

Lemma Qgtb_true (a b : Q) : Qgtb a b = true <-> b < a.
Proof.
  unfold Qgtb. rewrite negb_true_iff.
  split; intro H.
  - apply Qnot_le_lt. intro L. apply Qle_bool_iff in L. congruence.
  - destruct (Qle_bool a b) eqn:E; [|reflexivity].
    apply Qle_bool_iff in E. apply Qle_not_lt in E. contradiction.
Qed.

Lemma Qgtb_false (a b : Q) : Qgtb a b = false <-> a <= b.
Proof.
  unfold Qgtb. rewrite negb_false_iff. apply Qle_bool_iff.
Qed.

Lemma Qleb_true (a b : Q) : Qleb a b = true <-> a <= b.
Proof. apply Qle_bool_iff. Qed.

(** ** The threshold selector *)

Module Selector.
Import DualMotor.

Lemma current_limit_states_ascending : ascending current_limit_states.
Proof.
  unfold ascending, current_limit_states.
  repeat (apply SSorted_cons; [| repeat (apply Forall_cons; [reflexivity|]); apply Forall_nil]).
  apply SSorted_nil.
Qed.

Lemma ascending_tail e items : ascending (e :: items) -> ascending items.
Proof. intro H. inversion H; assumption. Qed.

Lemma ascending_head e items e' :
  ascending (e :: items) -> In e' items -> fst e < fst e'.
Proof.
  intros H I. inversion H as [|? ? _ F]; subst.
  rewrite Forall_forall in F. auto.
Qed.

(** Two entries of an ascending table with equal limits are the same
    entry. *)
Lemma ascending_unique items :
  ascending items ->
  forall e e', In e items -> In e' items -> fst e == fst e' -> e = e'.
Proof.
  induction items as [|x items IH]; intros A e e' I I' E; [destruct I|].
  destruct I as [->|I], I' as [->|I'].
  - reflexivity.
  - pose proof (ascending_head _ _ _ A I'). lra.
  - pose proof (ascending_head _ _ _ A I). lra.
  - apply IH; eauto using ascending_tail.
Qed.

(** What the loop computes on an ascending table: either every limit
    exceeds [amps] and the initial choice stands, or the result is the
    entry with the greatest limit not exceeding [amps]. *)
Lemma closest_below_spec items :
  ascending items ->
  forall amps chosen,
    let r := closest_below items amps chosen in
    (r = chosen /\ forall e, In e items -> amps < fst e)
    \/ (In r items /\ fst r <= amps
        /\ forall e, In e items -> fst e <= amps -> fst e <= fst r).
Proof.
  induction items as [|[limit state] items IH]; intros A amps chosen; simpl.
  - left. split; [reflexivity | intros e []].
  - destruct (Qgtb limit amps) eqn:G.
    + apply Qgtb_true in G. left. split; [reflexivity|].
      intros e [<-|I]; [exact G|].
      pose proof (ascending_head _ _ _ A I). simpl in *. lra.
    + apply Qgtb_false in G. right.
      destruct (IH (ascending_tail _ _ A) amps (limit, state)) as [[-> N]|(I & L & U)].
      * split; [left; reflexivity|]. split; [exact G|].
        intros e [<-|I] Le; [simpl; lra|].
        specialize (N e I). lra.
      * split; [right; exact I|]. split; [exact L|].
        intros e [<-|I'] Le; [|auto].
        pose proof (ascending_head _ _ _ A I). simpl in *. lra.
Qed.

(** The subscript [self.__current_limit_states[MIN_CURRENT_LIMIT]] finds
    the first entry, and the selection returns without touching the
    object or the log. *)
Lemma select_returns {S} (amps : Q) (s : S) :
  select amps s = (Returned (chosen amps), s, []).
Proof. reflexivity. Qed.

Lemma table_bounds e :
  In e current_limit_states -> MIN_CURRENT_LIMIT <= fst e /\ fst e <= MAX_CURRENT_LIMIT.
Proof.
  unfold current_limit_states. simpl.
  intros H. repeat (destruct H as [<-|H]; [split; discriminate|]). destruct H.
Qed.

Lemma first_entry : In (CURRENT_LIMIT_1, (0, 0)%Z) current_limit_states.
Proof. simpl; auto. Qed.

Lemma last_entry : In (CURRENT_LIMIT_9, (1, 1)%Z) current_limit_states.
Proof. simpl; intuition. Qed.

Lemma chosen_cases amps :
  (chosen amps = (CURRENT_LIMIT_1, (0, 0)%Z) /\ amps < MIN_CURRENT_LIMIT)
  \/ (In (chosen amps) current_limit_states /\ fst (chosen amps) <= amps
      /\ forall e, In e current_limit_states -> fst e <= amps -> fst e <= fst (chosen amps)).
Proof.
  destruct (closest_below_spec _ current_limit_states_ascending amps
              (CURRENT_LIMIT_1, (0, 0)%Z)) as [[E N]|H].
  - left. split; [exact E|]. exact (N _ first_entry).
  - right. exact H.
Qed.

Lemma chosen_in_table amps : In (chosen amps) current_limit_states.
Proof.
  destruct (chosen_cases amps) as [[-> _]|[I _]]; [apply first_entry | exact I].
Qed.

End Selector.

(** C1. For every amps the selection of [set_current_limit] returns (it
    never raises and changes nothing) an entry of the nine-entry table:
    the first entry when amps is below the minimum, the last entry when
    amps is at or above the maximum, the entry itself when amps equals a
    table limit, and otherwise the entry with the greatest limit that does
    not exceed amps. *)
Theorem select_clamped_floor :
  forall (S : Type) (s : S) (amps : Q),
  exists limit state,
    DualMotor.select amps s = (Returned (limit, state), s, [])
    /\ List.length DualMotor.current_limit_states = 9%nat
    /\ DualMotor.ascending DualMotor.current_limit_states
    /\ In (limit, state) DualMotor.current_limit_states
    /\ (amps < DualMotor.MIN_CURRENT_LIMIT ->
        (limit, state) = (DualMotor.CURRENT_LIMIT_1, (0, 0)%Z))
    /\ (DualMotor.MAX_CURRENT_LIMIT <= amps ->
        (limit, state) = (DualMotor.CURRENT_LIMIT_9, (1, 1)%Z))
    /\ (forall e, In e DualMotor.current_limit_states -> amps == fst e -> (limit, state) = e)
    /\ (DualMotor.MIN_CURRENT_LIMIT <= amps ->
        limit <= amps
        /\ forall e, In e DualMotor.current_limit_states -> fst e <= amps -> fst e <= limit).
Proof.
  intros S s amps.
  pose proof Selector.current_limit_states_ascending as A.
  pose proof (Selector.chosen_in_table amps) as I.
  pose proof (Selector.chosen_cases amps) as C.
  rewrite Selector.select_returns.
  destruct (DualMotor.chosen amps) as [limit state] eqn:E.
  exists limit, state.
  split; [reflexivity|]. split; [reflexivity|]. split; [exact A|]. split; [exact I|].
  simpl fst in C.
  repeat split.
  - intro Lo. destruct C as [[C _]|(_ & L & _)]; [exact C|].
    destruct (Selector.table_bounds _ I) as [B _]. cbn [fst] in B. limits_lra.
  - intro Hi. destruct C as [[_ C]|(_ & L & U)].
    + assert (DualMotor.MIN_CURRENT_LIMIT <= DualMotor.MAX_CURRENT_LIMIT) by discriminate. limits_lra.
    + apply (Selector.ascending_unique _ A); [exact I | apply Selector.last_entry |].
      pose proof (U _ Selector.last_entry Hi) as U9.
      destruct (Selector.table_bounds _ I) as [_ B]. cbn [fst] in *. limits_lra.
  - intros e Ie Eq. destruct C as [[_ C]|(_ & L & U)].
    + destruct (Selector.table_bounds _ Ie) as [B _]. limits_lra.
    + apply (Selector.ascending_unique _ A); [exact I | exact Ie |].
      assert (fst e <= amps) as Le by limits_lra.
      pose proof (U _ Ie Le). cbn [fst] in *. limits_lra.
  - destruct C as [[_ C]|(_ & L & _)]; [limits_lra | exact L].
  - intros e Ie Le. destruct C as [[_ C]|(_ & _ & U)]; [limits_lra | auto].
Qed.

Lemma select_clamped_floor_witness :
  exists limit state,
    DualMotor.select 1 tt = (Returned (limit, state), tt, [])
    /\ limit <= 1
    /\ (forall e, In e DualMotor.current_limit_states -> fst e <= 1 -> fst e <= limit)
    /\ (1 # 10) < DualMotor.MIN_CURRENT_LIMIT
    /\ exists limit' state',
        DualMotor.select (1 # 10) tt = (Returned (limit', state'), tt, [])
        /\ (limit', state') = (DualMotor.CURRENT_LIMIT_1, (0, 0)%Z).
Proof.
  destruct (select_clamped_floor unit tt 1)
    as (limit & state & E & _ & _ & _ & _ & _ & _ & F).
  exists limit, state. split; [exact E|].
  destruct F as [Le U]; [discriminate|].
  split; [exact Le|]. split; [exact U|]. split; [reflexivity|].
  destruct (select_clamped_floor unit tt (1 # 10))
    as (limit' & state' & E' & _ & _ & _ & B & _).
  exists limit', state'. split; [exact E' | apply B; reflexivity].
Defined.

(** C5. The selection is monotone: for a <= b the limit chosen for a is at
    most the limit chosen for b. *)
Theorem select_monotone :
  forall (S : Type) (s : S) (a b : Q),
    a <= b ->
    exists ea eb,
      DualMotor.select a s = (Returned ea, s, [])
      /\ DualMotor.select b s = (Returned eb, s, [])
      /\ fst ea <= fst eb.
Proof.
  intros S s a b Le.
  exists (DualMotor.chosen a), (DualMotor.chosen b).
  rewrite !Selector.select_returns. split; [reflexivity|]. split; [reflexivity|].
  destruct (Selector.chosen_cases a) as [[Ea _]|(Ia & La & _)].
  - rewrite Ea. destruct (Selector.table_bounds _ (Selector.chosen_in_table b)) as [B _].
    exact B.
  - destruct (Selector.chosen_cases b) as [[_ Lb]|(_ & _ & Ub)].
    + destruct (Selector.table_bounds _ Ia) as [B _]. limits_lra.
    + apply Ub; [exact Ia | limits_lra].
Qed.

Lemma select_monotone_witness :
  (1 # 2) <= 2
  /\ exists ea eb,
      DualMotor.select (1 # 2) tt = (Returned ea, tt, [])
      /\ DualMotor.select 2 tt = (Returned eb, tt, [])
      /\ fst ea <= fst eb.
Proof.
  split.
  - discriminate.
  - apply (select_monotone unit tt (1 # 2) 2). discriminate.
Defined.

(** ** Calls through the interface *)

Lemma perform_dual (c : call DualMotor.sample) (s : DualMotor.DualMotorModule) :
  perform c s =
    match c with
    | Monitor x => DualMotor.monitor x s
    | ProcessReadings => DualMotor.process_readings s
    | GetReadings => (Returned tt, s, [])
    end.
Proof. destruct c; reflexivity. Qed.

Lemma perform_quad (c : call QuadServoReg.sample) (s : QuadServoReg.QuadServoRegModule) :
  perform c s =
    match c with
    | Monitor x => QuadServoReg.monitor x s
    | ProcessReadings => QuadServoReg.process_readings s
    | GetReadings => (Returned tt, s, [])
    end.
Proof. destruct c; reflexivity. Qed.

Lemma reading_Fault (s : DualMotor.DualMotorModule) :
  reading "Fault" (get_readings s) = Some (VBool (DualMotor.fault_triggered s)).
Proof. reflexivity. Qed.

Lemma reading_PGood (s : QuadServoReg.QuadServoRegModule) :
  reading "PGood" (get_readings s) = Some (VBool (QuadServoReg.power_good_throughout s)).
Proof. reflexivity. Qed.

(** ** One cycle of the dual motor module *)

Module DualMotorFacts.
Import DualMotor.

(** [monitor], branch by branch. *)
Lemma dual_monitor_eq (x : sample) (s : DualMotorModule) :
  monitor x s =
    if read_fault x then
      (Raised (FaultError [Txt (message_header s);
                           Txt "Fault detected on motor driver! Turning off output"]), s, [])
    else if Qgtb (read_temperature x) TEMPERATURE_THRESHOLD then
      (Raised (OverTemperatureError
                 [Txt (message_header s); Txt "Temperature of "; Flt (read_temperature x);
                  Txt "°C exceeded the limit of "; Flt TEMPERATURE_THRESHOLD;
                  Txt "°C! Turning off output"]), s, [])
    else
      match callback_raises s x with
      | Some e => (Raised e, s, [])
      | None => (Returned tt, aggregate false (read_temperature x) s, [])
      end.
Proof.
  unfold monitor, callback_raises, bind.
  destruct (read_fault x); [reflexivity|].
  cbn -[Qgtb].
  destruct (Qgtb (read_temperature x) TEMPERATURE_THRESHOLD); [reflexivity|].
  cbn -[Qgtb].
  destruct (monitor_action_callback s) as [f|]; cbn; [|reflexivity].
  destruct (f false (read_temperature x)); reflexivity.
Qed.

Lemma dual_monitor_quiet (x : sample) (s : DualMotorModule) :
  quiet s x -> monitor x s = (Returned tt, aggregate false (read_temperature x) s, []).
Proof.
  intros (F & T & C). rewrite dual_monitor_eq, F, C.
  apply Qgtb_false in T. rewrite T. reflexivity.
Qed.

(** A call that raises leaves the object as it found it. *)
Lemma dual_monitor_raised (x : sample) (s : DualMotorModule) (e : exn) :
  result_of (monitor x s) = Raised e -> state_of (monitor x s) = s.
Proof.
  rewrite dual_monitor_eq.
  destruct (read_fault x); [reflexivity|].
  destruct (Qgtb _ _); [reflexivity|].
  destruct (callback_raises s x); [reflexivity | discriminate].
Qed.

(** No call of [monitor] changes the fault flag. *)
Lemma monitor_fault_triggered (x : sample) (s : DualMotorModule) :
  fault_triggered (state_of (monitor x s)) = fault_triggered s.
Proof.
  rewrite dual_monitor_eq.
  destruct (read_fault x); [reflexivity|].
  destruct (Qgtb _ _); [reflexivity|].
  destruct (callback_raises s x); [reflexivity|].
  cbn. apply orb_false_r.
Qed.

Lemma dual_process_readings_eq (s : DualMotorModule) :
  process_readings s =
    if (count_avg s >? 0)%Z then
      (Returned tt,
       set_count_avg 0%Z (set_avg_temperature (avg_temperature s / inject_Z (count_avg s)) s),
       [])
    else (Returned tt, s, []).
Proof.
  unfold process_readings, bind. cbn -[Z.gtb Qdiv].
  destruct (count_avg s >? 0)%Z; reflexivity.
Qed.

Lemma dual_clear_readings_eq (s : DualMotorModule) :
  clear_readings s =
    (Returned tt,
     mkModule (message_header s) (monitor_action_callback s) (current_limit s) (motors_en s)
              (motors_vref1 s) (motors_vref2 s) false NegInf PosInf 0 0%Z,
     []).
Proof. reflexivity. Qed.

Lemma perform_fault_triggered (c : call sample) (s : DualMotorModule) :
  fault_triggered (state_of (perform c s)) = fault_triggered s.
Proof.
  rewrite perform_dual. destruct c as [x| |].
  - apply monitor_fault_triggered.
  - rewrite dual_process_readings_eq.
    destruct (count_avg s >? 0)%Z; reflexivity.
  - reflexivity.
Qed.

Lemma after_fault_triggered (cs : list (call sample)) (s : DualMotorModule) :
  fault_triggered (after cs s) = fault_triggered s.
Proof.
  revert s. induction cs as [|c cs IH]; intro s; [reflexivity|].
  cbn [after]. rewrite IH. apply perform_fault_triggered.
Qed.

End DualMotorFacts.

(** ** One cycle of the quad servo module *)

Module QuadServoRegFacts.
Import QuadServoReg.

(** [monitor], branch by branch. *)
Lemma quad_monitor_eq (x : sample) (s : QuadServoRegModule) :
  monitor x s =
    if negb (read_power_good x) && halt_on_not_pgood s then
      (Raised (FaultError [Txt (message_header s);
                           Txt "Power is not good! Turning off output"]), s, [])
    else if Qgtb (read_temperature x) TEMPERATURE_THRESHOLD then
      (Raised (OverTemperatureError
                 [Txt (message_header s); Txt "Temperature of "; Flt (read_temperature x);
                  Txt "°C exceeded the limit of "; Flt TEMPERATURE_THRESHOLD;
                  Txt "°C! Turning off output"]), s, [])
    else
      let warned :=
        if Bool.eqb (last_pgood s) (read_power_good x) then []
        else [power_warning (message_header s) (read_power_good x)] in
      match callback_raises s x with
      | Some e => (Raised e, s, warned)
      | None => (Returned tt, aggregate (read_power_good x) (read_temperature x) s, warned)
      end.
Proof.
  unfold monitor, callback_raises, bind.
  destruct (read_power_good x) eqn:P, (halt_on_not_pgood s) eqn:H;
    cbn -[Qgtb]; rewrite ?H; try reflexivity;
    destruct (Qgtb (read_temperature x) TEMPERATURE_THRESHOLD); try reflexivity;
    cbn -[Qgtb];
    destruct (last_pgood s); cbn;
    destruct (monitor_action_callback s) as [f|]; cbn; try reflexivity;
    match goal with |- context [f ?b ?t] => destruct (f b t) end; reflexivity.
Qed.

Lemma quad_monitor_quiet (x : sample) (s : QuadServoRegModule) :
  quiet s x ->
  monitor x s =
    (Returned tt, aggregate (read_power_good x) (read_temperature x) s,
     if Bool.eqb (last_pgood s) (read_power_good x) then []
     else [power_warning (message_header s) (read_power_good x)]).
Proof.
  intros (F & T & C). rewrite quad_monitor_eq, F, C.
  apply Qgtb_false in T. rewrite T. reflexivity.
Qed.

(** A call that raises leaves the object as it found it. *)
Lemma quad_monitor_raised (x : sample) (s : QuadServoRegModule) (e : exn) :
  result_of (monitor x s) = Raised e -> state_of (monitor x s) = s.
Proof.
  rewrite quad_monitor_eq.
  destruct (negb _ && _); [reflexivity|].
  destruct (Qgtb _ _); [reflexivity|].
  cbv zeta. destruct (callback_raises s x); [reflexivity | discriminate].
Qed.

(** A call that returns has run all six assignments, and logged a
    warning exactly when the condition differs from the last one. *)
Lemma monitor_returned (x : sample) (s : QuadServoRegModule) :
  returns (monitor x s) = true ->
  monitor x s =
    (Returned tt, aggregate (read_power_good x) (read_temperature x) s,
     if Bool.eqb (last_pgood s) (read_power_good x) then []
     else [power_warning (message_header s) (read_power_good x)]).
Proof.
  rewrite quad_monitor_eq.
  destruct (negb _ && _); [discriminate|].
  destruct (Qgtb _ _); [discriminate|].
  cbv zeta. destruct (callback_raises s x); [discriminate | reflexivity].
Qed.

Lemma same_setup_refl s : same_setup s s.
Proof. repeat split. Qed.

Lemma same_setup_trans s1 s2 s3 : same_setup s1 s2 -> same_setup s2 s3 -> same_setup s1 s3.
Proof. unfold same_setup. intros (-> & -> & ->) (-> & -> & ->). repeat split. Qed.

Lemma quad_process_readings_eq (s : QuadServoRegModule) :
  process_readings s =
    if (count_avg s >? 0)%Z then
      (Returned tt,
       set_count_avg 0%Z (set_avg_temperature (avg_temperature s / inject_Z (count_avg s)) s),
       [])
    else (Returned tt, s, []).
Proof.
  unfold process_readings, bind. cbn -[Z.gtb Qdiv].
  destruct (count_avg s >? 0)%Z; reflexivity.
Qed.

Lemma quad_clear_readings_eq (s : QuadServoRegModule) :
  clear_readings s =
    (Returned tt,
     mkModule (message_header s) (monitor_action_callback s) (halt_on_not_pgood s)
              (last_pgood s) (power_en s) true NegInf PosInf 0 0%Z,
     []).
Proof. reflexivity. Qed.

(** Whether a cycle returns is decided by the sample and the setup. *)
Lemma returns_same_setup (x : sample) (s s' : QuadServoRegModule) :
  same_setup s s' -> returns (monitor x s') = returns (monitor x s).
Proof.
  intros (_ & C & H). rewrite !quad_monitor_eq. unfold callback_raises. rewrite C, H.
  destruct (negb _ && _); [reflexivity|].
  destruct (Qgtb _ _); [reflexivity|].
  cbv zeta. destruct (monitor_action_callback s) as [f|]; [|reflexivity].
  destruct (f _ _); reflexivity.
Qed.

Lemma perform_same_setup (c : call sample) (s : QuadServoRegModule) :
  same_setup s (state_of (perform c s)).
Proof.
  rewrite perform_quad. destruct c as [x| |].
  - rewrite quad_monitor_eq.
    destruct (negb _ && _); [apply same_setup_refl|].
    destruct (Qgtb _ _); [apply same_setup_refl|].
    cbv zeta. destruct (callback_raises s x); repeat split.
  - rewrite quad_process_readings_eq. destruct (count_avg s >? 0)%Z; repeat split.
  - apply same_setup_refl.
Qed.

(** What one call does to the power-good aggregate. *)
Lemma perform_power_good_throughout (c : call sample) (s : QuadServoRegModule) :
  power_good_throughout (state_of (perform c s)) =
    match c with
    | Monitor x =>
        if returns (monitor x s) then power_good_throughout s && read_power_good x
        else power_good_throughout s
    | _ => power_good_throughout s
    end.
Proof.
  rewrite perform_quad. destruct c as [x| |].
  - rewrite quad_monitor_eq.
    destruct (negb _ && _); [reflexivity|].
    destruct (Qgtb _ _); [reflexivity|].
    cbv zeta. destruct (callback_raises s x); reflexivity.
  - rewrite quad_process_readings_eq. destruct (count_avg s >? 0)%Z; reflexivity.
  - reflexivity.
Qed.

End QuadServoRegFacts.

(** ** Running statistics *)

Module Stats.

Lemma py_max_NegInf (t : Q) : py_max (Fin t) NegInf = Fin t.
Proof. reflexivity. Qed.

Lemma py_min_PosInf (t : Q) : py_min (Fin t) PosInf = Fin t.
Proof. reflexivity. Qed.

Lemma py_max_Fin (t m : Q) :
  py_max (Fin t) (Fin m) = if Qgtb m t then Fin m else Fin t.
Proof. reflexivity. Qed.

Lemma py_min_Fin (t m : Q) :
  py_min (Fin t) (Fin m) = if Qgtb t m then Fin m else Fin t.
Proof. reflexivity. Qed.

Lemma running_max_spec (ts : list Q) :
  (ts = [] /\ running_max ts = NegInf)
  \/ exists m, running_max ts = Fin m /\ is_maximum m ts.
Proof.
  unfold running_max.
  induction ts as [|t ts IH] using rev_ind; [left; split; reflexivity|].
  right. rewrite fold_left_app. cbn [fold_left].
  destruct IH as [[-> ->]|(m & -> & I & U)].
  - exists t. split; [reflexivity|]. split; [left; reflexivity|].
    intros t' [<-|[]]. lra.
  - rewrite py_max_Fin. destruct (Qgtb m t) eqn:G.
    + apply Qgtb_true in G. exists m. split; [reflexivity|]. split.
      * apply in_or_app. left. exact I.
      * intros t' I'. apply in_app_or in I'. destruct I' as [I'|[<-|[]]]; [auto | lra].
    + apply Qgtb_false in G. exists t. split; [reflexivity|]. split.
      * apply in_or_app. right. left. reflexivity.
      * intros t' I'. apply in_app_or in I'. destruct I' as [I'|[<-|[]]]; [|lra].
        specialize (U t' I'). lra.
Qed.

Lemma running_min_spec (ts : list Q) :
  (ts = [] /\ running_min ts = PosInf)
  \/ exists m, running_min ts = Fin m /\ is_minimum m ts.
Proof.
  unfold running_min.
  induction ts as [|t ts IH] using rev_ind; [left; split; reflexivity|].
  right. rewrite fold_left_app. cbn [fold_left].
  destruct IH as [[-> ->]|(m & -> & I & U)].
  - exists t. split; [reflexivity|]. split; [left; reflexivity|].
    intros t' [<-|[]]. lra.
  - rewrite py_min_Fin. destruct (Qgtb t m) eqn:G.
    + apply Qgtb_true in G. exists m. split; [reflexivity|]. split.
      * apply in_or_app. left. exact I.
      * intros t' I'. apply in_app_or in I'. destruct I' as [I'|[<-|[]]]; [auto | lra].
    + apply Qgtb_false in G. exists t. split; [reflexivity|]. split.
      * apply in_or_app. right. left. reflexivity.
      * intros t' I'. apply in_app_or in I'. destruct I' as [I'|[<-|[]]]; [|lra].
        specialize (U t' I'). lra.
Qed.

(** The aggregates after a run of completed cycles, field by field. *)
Lemma fold_accumulate (ts : list Q) (a : statistics) :
  fold_left accumulate ts a =
    mkStats (fold_left (fun m t => py_max (Fin t) m) ts (stat_max a))
            (fold_left (fun m t => py_min (Fin t) m) ts (stat_min a))
            (fold_left Qplus ts (stat_sum a))
            (stat_count a + Z.of_nat (List.length ts))%Z.
Proof.
  revert a. induction ts as [|t ts IH]; intro a.
  - destruct a. cbn. f_equal. lia.
  - cbn [fold_left]. rewrite IH. cbn [accumulate stat_max stat_min stat_sum stat_count].
    f_equal. cbn [List.length]. lia.
Qed.

Lemma cleared_statistics (ts : list Q) :
  fold_left accumulate ts (mkStats NegInf PosInf 0 0%Z) =
    mkStats (running_max ts) (running_min ts) (sum_of ts) (Z.of_nat (List.length ts)).
Proof. rewrite fold_accumulate. reflexivity. Qed.

End Stats.

(** ** Runs of cycles *)

Module DualMotorRuns.
Import DualMotor DualMotorFacts.

Lemma dual_statistics_aggregate (f : bool) (t : Q) (s : DualMotorModule) :
  DualMotor_statistics (aggregate f t s) = accumulate (DualMotor_statistics s) t.
Proof. reflexivity. Qed.

Lemma dual_quiet_aggregate (f : bool) (t : Q) (s : DualMotorModule) (x : sample) :
  quiet s x -> quiet (aggregate f t s) x.
Proof. exact (fun H => H). Qed.

Lemma dual_quiet_clear (s : DualMotorModule) (xs : list sample) :
  Forall (quiet s) xs -> Forall (quiet (state_of (clear_readings s))) xs.
Proof. apply Forall_impl. intros x H. exact H. Qed.

(** A run of quiet cycles: every call returns and the aggregates are
    accumulated sample by sample. *)
Lemma dual_monitor_each_quiet (xs : list sample) (s : DualMotorModule) :
  Forall (quiet s) xs ->
  all_return (map Monitor xs) s = true
  /\ fault_triggered (monitor_each xs s) = fault_triggered s
  /\ DualMotor_statistics (monitor_each xs s) =
       fold_left accumulate (map read_temperature xs) (DualMotor_statistics s).
Proof.
  unfold monitor_each. revert s.
  induction xs as [|x xs IH]; intros s Q; [repeat split|].
  inversion Q as [|? ? Qx Qxs]; subst.
  cbn [map after all_return fold_left].
  rewrite perform_dual, (dual_monitor_quiet x s Qx). cbn [state_of returns result_of fst snd].
  destruct (IH (aggregate false (read_temperature x) s)) as (R & F & St).
  { revert Qxs. apply Forall_impl. intro y. apply dual_quiet_aggregate. }
  rewrite R, F, St, dual_statistics_aggregate.
  repeat split. cbn. apply orb_false_r.
Qed.

Lemma dual_get_readings_statistics (s : DualMotorModule) :
  get_readings s =
    [ ("Fault"%string, VBool (fault_triggered s));
      ("T_max"%string, VNum (stat_max (DualMotor_statistics s)));
      ("T_min"%string, VNum (stat_min (DualMotor_statistics s)));
      ("T_avg"%string, VNum (Fin (stat_sum (DualMotor_statistics s)))) ].
Proof. reflexivity. Qed.

Lemma dual_process_readings_statistics (s : DualMotorModule) :
  (0 < stat_count (DualMotor_statistics s))%Z ->
  fault_triggered (state_of (process_readings s)) = fault_triggered s
  /\ DualMotor_statistics (state_of (process_readings s)) =
       mkStats (stat_max (DualMotor_statistics s)) (stat_min (DualMotor_statistics s))
               (stat_sum (DualMotor_statistics s)
                / inject_Z (stat_count (DualMotor_statistics s)))
               0%Z.
Proof.
  intro P. rewrite dual_process_readings_eq.
  cbn [DualMotor_statistics stat_count] in P.
  apply Z.gtb_lt in P. rewrite P. split; reflexivity.
Qed.

End DualMotorRuns.

Module QuadServoRegRuns.
Import QuadServoReg QuadServoRegFacts.

Lemma quad_statistics_aggregate (g : bool) (t : Q) (s : QuadServoRegModule) :
  QuadServoReg_statistics (aggregate g t s) = accumulate (QuadServoReg_statistics s) t.
Proof. reflexivity. Qed.

Lemma quad_quiet_aggregate (g : bool) (t : Q) (s : QuadServoRegModule) (x : sample) :
  quiet s x -> quiet (aggregate g t s) x.
Proof. exact (fun H => H). Qed.

Lemma quad_quiet_clear (s : QuadServoRegModule) (xs : list sample) :
  Forall (quiet s) xs -> Forall (quiet (state_of (clear_readings s))) xs.
Proof. apply Forall_impl. intros x H. exact H. Qed.

(** A run of quiet cycles: every call returns and the aggregates are
    accumulated sample by sample. *)
Lemma quad_monitor_each_quiet (xs : list sample) (s : QuadServoRegModule) :
  Forall (quiet s) xs ->
  all_return (map Monitor xs) s = true
  /\ QuadServoReg_statistics (monitor_each xs s) =
       fold_left accumulate (map read_temperature xs) (QuadServoReg_statistics s).
Proof.
  unfold monitor_each. revert s.
  induction xs as [|x xs IH]; intros s Q; [repeat split|].
  inversion Q as [|? ? Qx Qxs]; subst.
  cbn [map after all_return fold_left].
  rewrite perform_quad, (quad_monitor_quiet x s Qx). cbn [state_of returns result_of fst snd].
  destruct (IH (aggregate (read_power_good x) (read_temperature x) s)) as (R & St).
  { revert Qxs. apply Forall_impl. intro y. apply quad_quiet_aggregate. }
  rewrite R, St, quad_statistics_aggregate. split; reflexivity.
Qed.

Lemma quad_get_readings_statistics (s : QuadServoRegModule) :
  get_readings s =
    [ ("PGood"%string, VBool (power_good_throughout s));
      ("T_max"%string, VNum (stat_max (QuadServoReg_statistics s)));
      ("T_min"%string, VNum (stat_min (QuadServoReg_statistics s)));
      ("T_avg"%string, VNum (Fin (stat_sum (QuadServoReg_statistics s)))) ].
Proof. reflexivity. Qed.

Lemma quad_process_readings_statistics (s : QuadServoRegModule) :
  (0 < stat_count (QuadServoReg_statistics s))%Z ->
  QuadServoReg_statistics (state_of (process_readings s)) =
    mkStats (stat_max (QuadServoReg_statistics s)) (stat_min (QuadServoReg_statistics s))
            (stat_sum (QuadServoReg_statistics s)
             / inject_Z (stat_count (QuadServoReg_statistics s)))
            0%Z.
Proof.
  intro P. rewrite quad_process_readings_eq.
  cbn [QuadServoReg_statistics stat_count] in P.
  apply Z.gtb_lt in P. rewrite P. reflexivity.
Qed.

Lemma after_same_setup (cs : list (call sample)) (s : QuadServoRegModule) :
  same_setup s (after cs s).
Proof.
  revert s. induction cs as [|c cs IH]; intro s; [apply same_setup_refl|].
  cbn [after]. eapply same_setup_trans; [apply perform_same_setup | apply IH].
Qed.

(** Whether a cycle returns does not depend on the calls made before
    it. *)
Lemma returns_after (cs : list (call sample)) (x : sample) (s : QuadServoRegModule) :
  returns (monitor x (after cs s)) = returns (monitor x s).
Proof. apply returns_same_setup, after_same_setup. Qed.

(** The power-good aggregate after any calls: it stands exactly when it
    stood before and every call held it. *)
Lemma after_power_good_throughout (cs : list (call sample)) (s0 s : QuadServoRegModule) :
  same_setup s0 s ->
  power_good_throughout (after cs s) =
    power_good_throughout s && forallb (power_held s0) cs.
Proof.
  revert s. induction cs as [|c cs IH]; intros s E.
  - cbn. symmetry. apply andb_true_r.
  - cbn [after forallb].
    rewrite IH by (eapply same_setup_trans; [exact E | apply perform_same_setup]).
    rewrite perform_power_good_throughout.
    destruct c as [x| |]; cbn [power_held]; [|reflexivity..].
    rewrite <- (returns_same_setup x s0 s E).
    destruct (returns (monitor x s)); cbn [implb].
    + symmetry. apply andb_assoc.
    + reflexivity.
Qed.

(** The warnings of a run of returning cycles: one per change of the
    observed condition, in order. *)
Lemma logged_transitions (xs : list sample) (s : QuadServoRegModule) :
  all_return (map Monitor xs) s = true ->
  logged (map Monitor xs) s =
    map (power_warning (message_header s))
        (transitions (last_pgood s) (map read_power_good xs)).
Proof.
  revert s. induction xs as [|x xs IH]; intros s R; [reflexivity|].
  cbn [map all_return logged transitions] in *.
  rewrite perform_quad in *.
  apply andb_true_iff in R. destruct R as [Rx Rxs].
  rewrite (monitor_returned x s Rx) in *. cbn [state_of log_of fst snd] in *.
  rewrite (IH _ Rxs). cbn [aggregate last_pgood message_header].
  destruct (Bool.eqb (last_pgood s) (read_power_good x)); reflexivity.
Qed.

End QuadServoRegRuns.

(** * The monitor and its aggregates *)

(** C2 (as the code has it). A [monitor] call of the dual motor module that
    observes a fault raises [FaultError] before the accumulator is
    updated, so the observation is not recorded: the object is unchanged,
    ["Fault"] reads as it did before the call through every later
    [monitor], [process_readings] and [get_readings] call, and in an
    interval begun by [clear_readings] it reads false. *)
Theorem dual_fault_observation_not_recorded :
  forall (s : DualMotor.DualMotorModule) (x : DualMotor.sample)
         (later : list (call DualMotor.sample)),
    DualMotor.read_fault x = true ->
    (exists msg, DualMotor.monitor x s = (Raised (FaultError msg), s, []))
    /\ reading "Fault" (get_readings (after (Monitor x :: later) s))
       = reading "Fault" (get_readings s)
    /\ reading "Fault"
         (get_readings (after (Monitor x :: later) (state_of (clear_readings s))))
       = Some (VBool false).
Proof.
  intros s x later F. split; [|split].
  - rewrite DualMotorFacts.dual_monitor_eq, F. eexists. reflexivity.
  - rewrite !reading_Fault, DualMotorFacts.after_fault_triggered. reflexivity.
  - rewrite reading_Fault, DualMotorFacts.after_fault_triggered. reflexivity.
Qed.

Lemma dual_fault_observation_not_recorded_witness :
  DualMotor.read_fault dual_fault_sample = true
  /\ (exists msg,
        DualMotor.monitor dual_fault_sample dual_motor_idle
        = (Raised (FaultError msg), dual_motor_idle, []))
  /\ reading "Fault"
       (get_readings
          (after [Monitor dual_fault_sample; Monitor (dual_sample 25); ProcessReadings]
                 dual_motor_idle))
     = reading "Fault" (get_readings dual_motor_idle)
  /\ reading "Fault"
       (get_readings
          (after [Monitor dual_fault_sample; Monitor (dual_sample 25); ProcessReadings]
                 (state_of (clear_readings dual_motor_idle))))
     = Some (VBool false).
Proof.
  split; [reflexivity|].
  apply (dual_fault_observation_not_recorded dual_motor_idle dual_fault_sample
           [Monitor (dual_sample 25); ProcessReadings]).
  reflexivity.
Defined.

(** C2 fails as stated: a cycle that observes a fault raises, and
    ["Fault"] still reads false afterwards. *)
Lemma dual_fault_cycle_reads_false :
  DualMotor.read_fault dual_fault_sample = true
  /\ returns (monitor dual_fault_sample (state_of (clear_readings dual_motor_idle))) = false
  /\ reading "Fault"
       (get_readings
          (after [Monitor dual_fault_sample] (state_of (clear_readings dual_motor_idle))))
     = Some (VBool false)
  /\ reading "Fault"
       (get_readings
          (after [Monitor dual_fault_sample; Monitor (dual_sample 25)]
                 (state_of (clear_readings dual_motor_idle))))
     = Some (VBool false).
Proof. repeat split. Qed.

(** C3. From a cleared state, N >= 1 [monitor] calls that each observe no
    fault and a temperature at or below the threshold (and whose callback,
    if one is installed, returns) all return, and after one
    [process_readings] the readings show T_avg = (t1 + ... + tN) / N,
    T_max = max(t1..tN) and T_min = min(t1..tN); for both modules. *)
Theorem statistics_after_quiet_cycles :
  (forall (s : DualMotor.DualMotorModule) (xs : list DualMotor.sample),
      xs <> [] ->
      Forall (DualMotor.quiet s) xs ->
      all_return (map Monitor xs) (state_of (clear_readings s)) = true
      /\ reports_statistics
           (get_readings
              (state_of (process_readings (monitor_each xs (state_of (clear_readings s))))))
           (map DualMotor.read_temperature xs))
  /\ (forall (s : QuadServoReg.QuadServoRegModule) (xs : list QuadServoReg.sample),
      xs <> [] ->
      Forall (QuadServoReg.quiet s) xs ->
      all_return (map Monitor xs) (state_of (clear_readings s)) = true
      /\ reports_statistics
           (get_readings
              (state_of (process_readings (monitor_each xs (state_of (clear_readings s))))))
           (map QuadServoReg.read_temperature xs)).
Proof.
  split; intros s xs N Q.
  - change (state_of (clear_readings s)) with (state_of (DualMotor.clear_readings s)).
    destruct (DualMotorRuns.dual_monitor_each_quiet xs _ (DualMotorRuns.dual_quiet_clear s xs Q))
      as (R & _ & St).
    split; [exact R|].
    change (DualMotor_statistics (state_of (DualMotor.clear_readings s)))
      with (mkStats NegInf PosInf 0 0%Z) in St.
    rewrite Stats.cleared_statistics in St.
    set (s1 := monitor_each xs (state_of (DualMotor.clear_readings s))) in *.
    assert (0 < stat_count (DualMotor_statistics s1))%Z as P.
    { rewrite St. cbn [stat_count]. rewrite length_map.
      destruct xs; [congruence | cbn [List.length]; lia]. }
    destruct (DualMotorRuns.dual_process_readings_statistics s1 P) as [_ St2].
    change (get_readings (state_of (process_readings s1)))
      with (DualMotor.get_readings (state_of (DualMotor.process_readings s1))).
    rewrite DualMotorRuns.dual_get_readings_statistics, St2, St.
    cbn [stat_max stat_min stat_sum stat_count].
    unfold reports_statistics. split; [reflexivity|]. split.
    + destruct (Stats.running_max_spec (map DualMotor.read_temperature xs))
        as [[E _]|(m & E & M)].
      * destruct xs; [congruence | discriminate].
      * exists m. cbn. rewrite E. split; [reflexivity | exact M].
    + destruct (Stats.running_min_spec (map DualMotor.read_temperature xs))
        as [[E _]|(m & E & M)].
      * destruct xs; [congruence | discriminate].
      * exists m. cbn. rewrite E. split; [reflexivity | exact M].
  - change (state_of (clear_readings s)) with (state_of (QuadServoReg.clear_readings s)).
    destruct (QuadServoRegRuns.quad_monitor_each_quiet xs _ (QuadServoRegRuns.quad_quiet_clear s xs Q))
      as (R & St).
    split; [exact R|].
    change (QuadServoReg_statistics (state_of (QuadServoReg.clear_readings s)))
      with (mkStats NegInf PosInf 0 0%Z) in St.
    rewrite Stats.cleared_statistics in St.
    set (s1 := monitor_each xs (state_of (QuadServoReg.clear_readings s))) in *.
    assert (0 < stat_count (QuadServoReg_statistics s1))%Z as P.
    { rewrite St. cbn [stat_count]. rewrite length_map.
      destruct xs; [congruence | cbn [List.length]; lia]. }
    pose proof (QuadServoRegRuns.quad_process_readings_statistics s1 P) as St2.
    change (get_readings (state_of (process_readings s1)))
      with (QuadServoReg.get_readings (state_of (QuadServoReg.process_readings s1))).
    rewrite QuadServoRegRuns.quad_get_readings_statistics, St2, St.
    cbn [stat_max stat_min stat_sum stat_count].
    unfold reports_statistics. split; [reflexivity|]. split.
    + destruct (Stats.running_max_spec (map QuadServoReg.read_temperature xs))
        as [[E _]|(m & E & M)].
      * destruct xs; [congruence | discriminate].
      * exists m. cbn. rewrite E. split; [reflexivity | exact M].
    + destruct (Stats.running_min_spec (map QuadServoReg.read_temperature xs))
        as [[E _]|(m & E & M)].
      * destruct xs; [congruence | discriminate].
      * exists m. cbn. rewrite E. split; [reflexivity | exact M].
Qed.

Lemma statistics_after_quiet_cycles_witness :
  (Forall (DualMotor.quiet dual_motor_idle) [dual_sample 20; dual_sample 30; dual_sample 25]
   /\ reports_statistics
        (get_readings
           (state_of
              (process_readings
                 (monitor_each [dual_sample 20; dual_sample 30; dual_sample 25]
                    (state_of (clear_readings dual_motor_idle))))))
        [20; 30; 25])
  /\ (Forall (QuadServoReg.quiet (quad_servo_idle false))
             [quad_sample true 40; quad_sample false 35]
      /\ reports_statistics
           (get_readings
              (state_of
                 (process_readings
                    (monitor_each [quad_sample true 40; quad_sample false 35]
                       (state_of (clear_readings (quad_servo_idle false)))))))
           [40; 35]).
Proof.
  assert (Forall (DualMotor.quiet dual_motor_idle)
            [dual_sample 20; dual_sample 30; dual_sample 25]) as D.
  { repeat constructor; discriminate. }
  assert (Forall (QuadServoReg.quiet (quad_servo_idle false))
            [quad_sample true 40; quad_sample false 35]) as Q.
  { repeat constructor; discriminate. }
  split; (split; [assumption|]).
  - apply (proj1 statistics_after_quiet_cycles dual_motor_idle
             [dual_sample 20; dual_sample 30; dual_sample 25]); [discriminate | exact D].
  - apply (proj2 statistics_after_quiet_cycles (quad_servo_idle false)
             [quad_sample true 40; quad_sample false 35]); [discriminate | exact Q].
Defined.

(** C7. A second [process_readings] with no [monitor] in between is a
    no-op: it returns and leaves the whole object, the average included,
    as the first call left it; for every state of either module. *)
Theorem process_readings_twice :
  (forall s : DualMotor.DualMotorModule,
      DualMotor.process_readings (state_of (DualMotor.process_readings s))
      = (Returned tt, state_of (DualMotor.process_readings s), []))
  /\ (forall s : QuadServoReg.QuadServoRegModule,
      QuadServoReg.process_readings (state_of (QuadServoReg.process_readings s))
      = (Returned tt, state_of (QuadServoReg.process_readings s), [])).
Proof.
  split; intro s.
  - rewrite (DualMotorFacts.dual_process_readings_eq s).
    destruct (DualMotor.count_avg s >? 0)%Z eqn:C; cbn [state_of fst snd];
      rewrite DualMotorFacts.dual_process_readings_eq; [reflexivity|].
    rewrite C. reflexivity.
  - rewrite (QuadServoRegFacts.quad_process_readings_eq s).
    destruct (QuadServoReg.count_avg s >? 0)%Z eqn:C; cbn [state_of fst snd];
      rewrite QuadServoRegFacts.quad_process_readings_eq; [reflexivity|].
    rewrite C. reflexivity.
Qed.

(** C9. Right after [clear_readings], [get_readings] shows the neutral
    defaults: ["Fault"] false (dual motor) or ["PGood"] true (quad servo),
    T_max at minus infinity, T_min at plus infinity, T_avg at 0; the
    sample count is 0 as well. *)
Theorem readings_after_clear :
  (forall s : DualMotor.DualMotorModule,
      result_of (clear_readings s) = Returned tt
      /\ get_readings (state_of (clear_readings s))
         = [ ("Fault"%string, VBool false); ("T_max"%string, VNum NegInf);
             ("T_min"%string, VNum PosInf); ("T_avg"%string, VNum (Fin 0)) ]
      /\ DualMotor.avg_temperature (state_of (clear_readings s)) = 0
      /\ DualMotor.count_avg (state_of (clear_readings s)) = 0%Z)
  /\ (forall s : QuadServoReg.QuadServoRegModule,
      result_of (clear_readings s) = Returned tt
      /\ get_readings (state_of (clear_readings s))
         = [ ("PGood"%string, VBool true); ("T_max"%string, VNum NegInf);
             ("T_min"%string, VNum PosInf); ("T_avg"%string, VNum (Fin 0)) ]
      /\ QuadServoReg.avg_temperature (state_of (clear_readings s)) = 0
      /\ QuadServoReg.count_avg (state_of (clear_readings s)) = 0%Z).
Proof. split; intro s; repeat split. Qed.

(** C10. Whenever [monitor] raises [FaultError] or [OverTemperatureError]
    the object is exactly as it was before the call, aggregates and last
    condition included; for both modules. *)
Theorem monitor_fatal_leaves_state :
  (forall (s : DualMotor.DualMotorModule) (x : DualMotor.sample) (e : exn),
      fatal e ->
      result_of (DualMotor.monitor x s) = Raised e ->
      state_of (DualMotor.monitor x s) = s)
  /\ (forall (s : QuadServoReg.QuadServoRegModule) (x : QuadServoReg.sample) (e : exn),
      fatal e ->
      result_of (QuadServoReg.monitor x s) = Raised e ->
      state_of (QuadServoReg.monitor x s) = s).
Proof.
  split; intros s x e _ R.
  - exact (DualMotorFacts.dual_monitor_raised x s e R).
  - exact (QuadServoRegFacts.quad_monitor_raised x s e R).
Qed.

Lemma monitor_fatal_leaves_state_witness :
  (exists e,
      fatal e
      /\ result_of (DualMotor.monitor dual_fault_sample
                      (monitor_each [dual_sample 20; dual_sample 30] dual_motor_idle))
         = Raised e
      /\ state_of (DualMotor.monitor dual_fault_sample
                     (monitor_each [dual_sample 20; dual_sample 30] dual_motor_idle))
         = monitor_each [dual_sample 20; dual_sample 30] dual_motor_idle)
  /\ (exists e,
      fatal e
      /\ result_of (QuadServoReg.monitor (quad_sample false 95)
                      (monitor_each [quad_sample true 40] (quad_servo_idle false)))
         = Raised e
      /\ state_of (QuadServoReg.monitor (quad_sample false 95)
                     (monitor_each [quad_sample true 40] (quad_servo_idle false)))
         = monitor_each [quad_sample true 40] (quad_servo_idle false)).
Proof.
  split.
  - refine (ex_intro _ (FaultError _)
              (conj I (conj eq_refl
                 (proj1 monitor_fatal_leaves_state
                    (monitor_each [dual_sample 20; dual_sample 30] dual_motor_idle)
                    dual_fault_sample (FaultError _) I eq_refl)))).
  - refine (ex_intro _ (OverTemperatureError _)
              (conj I (conj eq_refl
                 (proj2 monitor_fatal_leaves_state
                    (monitor_each [quad_sample true 40] (quad_servo_idle false))
                    (quad_sample false 95) (OverTemperatureError _) I eq_refl)))).
Defined.

(** C6 (as the code has it). In an interval begun by [clear_readings],
    ["PGood"] is true exactly when every [monitor] cycle that returned
    observed power good; one returned cycle that observed power not good
    makes it false for the rest of the interval.  A cycle that raises
    (on power not good when [halt_on_not_pgood] is set, on over
    temperature, or from the callback) leaves it as it was. *)
Theorem pgood_is_and_of_returned_cycles :
  forall (s : QuadServoReg.QuadServoRegModule) (cs : list (call QuadServoReg.sample)),
    reading "PGood" (get_readings (after cs (state_of (clear_readings s))))
    = Some (VBool (forallb (power_held s) cs)).
Proof.
  intros s cs. rewrite reading_PGood.
  rewrite (QuadServoRegRuns.after_power_good_throughout cs s).
  - reflexivity.
  - repeat split.
Qed.

(** C6 fails as stated: a cycle that observes power not good and raises
    (here because [halt_on_not_pgood] is set, or because the temperature
    is over the threshold) leaves ["PGood"] true. *)
Lemma pgood_survives_raising_cycle :
  QuadServoReg.read_power_good (quad_sample false 40) = false
  /\ returns (monitor (quad_sample false 40) (state_of (clear_readings (quad_servo_idle true))))
     = false
  /\ reading "PGood"
       (get_readings
          (after [Monitor (quad_sample false 40)]
                 (state_of (clear_readings (quad_servo_idle true)))))
     = Some (VBool true)
  /\ returns (monitor (quad_sample false 95) (state_of (clear_readings (quad_servo_idle false))))
     = false
  /\ reading "PGood"
       (get_readings
          (after [Monitor (quad_sample false 95); Monitor (quad_sample true 40)]
                 (state_of (clear_readings (quad_servo_idle false)))))
     = Some (VBool true).
Proof. repeat split. Qed.

(** C8 (as the code has it). Over any run of [monitor] calls that all
    return (none raises, be it a fatal error or an exception of the
    callback), the quad servo module logs exactly one power warning for
    each cycle whose observed condition differs from the previous cycle's
    ([last_pgood] for the first), in order, and nothing on cycles where
    the condition persists. *)
Theorem power_warning_once_per_transition :
  forall (s : QuadServoReg.QuadServoRegModule) (xs : list QuadServoReg.sample),
    all_return (map Monitor xs) s = true ->
    logged (map Monitor xs) s
    = map (QuadServoReg.power_warning (QuadServoReg.message_header s))
          (QuadServoReg.transitions (QuadServoReg.last_pgood s)
             (map QuadServoReg.read_power_good xs)).
Proof. intros s xs R. apply QuadServoRegRuns.logged_transitions. exact R. Qed.

Lemma power_warning_once_per_transition_witness :
  all_return
    (map Monitor [quad_sample true 40; quad_sample true 41; quad_sample false 42;
                  quad_sample false 43; quad_sample true 44])
    (quad_servo_idle false) = true
  /\ logged
       (map Monitor [quad_sample true 40; quad_sample true 41; quad_sample false 42;
                     quad_sample false 43; quad_sample true 44])
       (quad_servo_idle false)
     = [ LogWarn [Txt "[Slot2 'Quad Servo Regulated'] "; Txt "Power is good"];
         LogWarn [Txt "[Slot2 'Quad Servo Regulated'] "; Txt "Power is not good"];
         LogWarn [Txt "[Slot2 'Quad Servo Regulated'] "; Txt "Power is good"] ].
Proof.
  split; [reflexivity|].
  exact (power_warning_once_per_transition (quad_servo_idle false)
           [quad_sample true 40; quad_sample true 41; quad_sample false 42;
            quad_sample false 43; quad_sample true 44] eq_refl).
Defined.

(** C8 fails as stated: a cycle whose callback raises an error that is
    not fatal has logged its warning but leaves [last_pgood] as it was, so
    the next cycle, observing the same condition, logs the warning
    again: two warnings for one transition. *)
Lemma power_warning_repeats_after_callback_raise :
  result_of (QuadServoReg.monitor (quad_sample false 65) quad_servo_watched)
  = Raised (UserError [Txt "too warm"])
  /\ ~ fatal (UserError [Txt "too warm"])
  /\ result_of
       (QuadServoReg.monitor (quad_sample false 40)
          (state_of (QuadServoReg.monitor (quad_sample false 65) quad_servo_watched)))
     = Returned tt
  /\ QuadServoReg.transitions (QuadServoReg.last_pgood quad_servo_watched)
       (map QuadServoReg.read_power_good [quad_sample false 65; quad_sample false 40])
     = [false]
  /\ logged [Monitor (quad_sample false 65); Monitor (quad_sample false 40)]
            quad_servo_watched
     = [ LogWarn [Txt "[Slot2 'Quad Servo Regulated'] "; Txt "Power is not good"];
         LogWarn [Txt "[Slot2 'Quad Servo Regulated'] "; Txt "Power is not good"] ].
Proof.
  split; [reflexivity|]. split; [exact (fun H => H)|]. repeat split.
Qed.

(** * Changing the current limit *)

(** The entry [set_current_limit] settles on, characterised: it is clamped
    to the table and is the greatest entry not above [amps]. *)
Lemma chosen_clamped (amps : Q) :
  In (DualMotor.chosen amps) DualMotor.current_limit_states
  /\ (amps < DualMotor.MIN_CURRENT_LIMIT ->
      DualMotor.chosen amps = (DualMotor.CURRENT_LIMIT_1, (0, 0)%Z))
  /\ (DualMotor.MAX_CURRENT_LIMIT <= amps ->
      DualMotor.chosen amps = (DualMotor.CURRENT_LIMIT_9, (1, 1)%Z))
  /\ (forall e, In e DualMotor.current_limit_states -> amps == fst e ->
                DualMotor.chosen amps = e)
  /\ (DualMotor.MIN_CURRENT_LIMIT <= amps ->
      fst (DualMotor.chosen amps) <= amps
      /\ forall e, In e DualMotor.current_limit_states -> fst e <= amps ->
                   fst e <= fst (DualMotor.chosen amps)).
Proof.
  pose proof Selector.current_limit_states_ascending as A.
  pose proof (Selector.chosen_in_table amps) as I.
  pose proof (Selector.table_bounds _ I) as [Blo Bhi].
  split; [exact I|].
  destruct (Selector.chosen_cases amps) as [[C Lo]|(_ & L & U)].
  - split; [intros _; exact C|]. split; [|split].
    + intro Hi.
      assert (DualMotor.MIN_CURRENT_LIMIT <= DualMotor.MAX_CURRENT_LIMIT) by discriminate.
      lra.
    + intros e Ie Eq. destruct (Selector.table_bounds _ Ie) as [B _]. lra.
    + intro Ge. lra.
  - split; [intro Lo; lra|]. split; [|split].
    + intro Hi.
      apply (Selector.ascending_unique _ A); [exact I | apply Selector.last_entry |].
      pose proof (U _ Selector.last_entry Hi) as U9. limits_lra.
    + intros e Ie Eq.
      apply (Selector.ascending_unique _ A); [exact I | exact Ie |].
      assert (fst e <= amps) as Le by lra.
      pose proof (U _ Ie Le). lra.
    + intros _. split; [exact L | exact U].
Qed.

Lemma chosen_monotone (a b : Q) :
  a <= b -> fst (DualMotor.chosen a) <= fst (DualMotor.chosen b).
Proof.
  intro Le.
  destruct (Selector.chosen_cases a) as [[Ea _]|(Ia & La & _)].
  - rewrite Ea. destruct (Selector.table_bounds _ (Selector.chosen_in_table b)) as [B _].
    exact B.
  - destruct (Selector.chosen_cases b) as [[_ Lb]|(_ & _ & Ub)].
    + destruct (Selector.table_bounds _ Ia) as [B _]. lra.
    + apply Ub; [exact Ia | lra].
Qed.

Lemma set_current_limit_eq (amps : Q) (s : DualMotor.DualMotorModule) :
  DualMotor.set_current_limit amps s =
    if DualMotor.is_enabled s then
      (Raised (RuntimeError [Txt "Cannot change current limit whilst motor driver is active"]),
       s, [])
    else
      (Returned tt,
       DualMotor.set_current_limit_field (fst (DualMotor.chosen amps))
         (DualMotor.set_motors_vref2
            (DualMotor.apply_state (snd (snd (DualMotor.chosen amps))) (DualMotor.motors_vref2 s))
            (DualMotor.set_motors_vref1
               (DualMotor.apply_state (fst (snd (DualMotor.chosen amps)))
                  (DualMotor.motors_vref1 s))
               s)),
       [LogInfo [Txt (DualMotor.message_header s); Txt "Current limit set to ";
                 Flt (fst (DualMotor.chosen amps)); Txt "A"]]).
Proof.
  unfold DualMotor.set_current_limit, bind, gets.
  destruct (DualMotor.is_enabled s); [reflexivity|].
  rewrite Selector.select_returns. reflexivity.
Qed.

(** C4. While the driver is enabled [set_current_limit] raises the
    programming error (a [RuntimeError]) and leaves the stored limit, the
    pins and everything else as they were.  While it is disabled the call
    returns and stores the limit of the monotone clamp selection, applying
    that entry's pin states: the stored limit is a table limit, the
    minimum when amps is below it, the maximum when amps is at or above
    it, amps itself when amps is a table limit, otherwise the greatest
    table limit not above amps; and a larger amps never stores a smaller
    limit. *)
Theorem set_current_limit_guarded :
  forall (s : DualMotor.DualMotorModule) (amps : Q),
    (DualMotor.is_enabled s = true ->
     exists msg, DualMotor.set_current_limit amps s = (Raised (RuntimeError msg), s, []))
    /\ (DualMotor.is_enabled s = false ->
        exists limit state,
          DualMotor.select amps s = (Returned (limit, state), s, [])
          /\ result_of (DualMotor.set_current_limit amps s) = Returned tt
          /\ DualMotor.current_limit (state_of (DualMotor.set_current_limit amps s)) = limit
          /\ DualMotor.motors_vref1 (state_of (DualMotor.set_current_limit amps s))
             = DualMotor.apply_state (fst state) (DualMotor.motors_vref1 s)
          /\ DualMotor.motors_vref2 (state_of (DualMotor.set_current_limit amps s))
             = DualMotor.apply_state (snd state) (DualMotor.motors_vref2 s)
          /\ DualMotor.is_enabled (state_of (DualMotor.set_current_limit amps s)) = false
          /\ In (limit, state) DualMotor.current_limit_states
          /\ (amps < DualMotor.MIN_CURRENT_LIMIT ->
              (limit, state) = (DualMotor.CURRENT_LIMIT_1, (0, 0)%Z))
          /\ (DualMotor.MAX_CURRENT_LIMIT <= amps ->
              (limit, state) = (DualMotor.CURRENT_LIMIT_9, (1, 1)%Z))
          /\ (forall e, In e DualMotor.current_limit_states -> amps == fst e ->
                        (limit, state) = e)
          /\ (DualMotor.MIN_CURRENT_LIMIT <= amps ->
              limit <= amps
              /\ forall e, In e DualMotor.current_limit_states -> fst e <= amps ->
                           fst e <= limit)
          /\ (forall more, amps <= more ->
                limit
                <= DualMotor.current_limit (state_of (DualMotor.set_current_limit more s)))).
Proof.
  intros s amps. split; intro E.
  - rewrite set_current_limit_eq, E. eexists. reflexivity.
  - rewrite Selector.select_returns.
    destruct (chosen_clamped amps) as (I & Lo & Hi & Ex & Fl).
    assert (forall more, amps <= more ->
              fst (DualMotor.chosen amps)
              <= DualMotor.current_limit (state_of (DualMotor.set_current_limit more s)))
      as Mono.
    { intros more Le. rewrite set_current_limit_eq, E. cbn [state_of fst snd].
      cbn [DualMotor.current_limit DualMotor.set_current_limit_field].
      apply chosen_monotone, Le. }
    rewrite set_current_limit_eq, E.
    destruct (DualMotor.chosen amps) as [limit state].
    exists limit, state. cbn [fst snd] in *.
    split; [reflexivity|]. split; [reflexivity|]. split; [reflexivity|].
    split; [reflexivity|]. split; [reflexivity|]. split; [exact E|].
    split; [exact I|]. split; [exact Lo|]. split; [exact Hi|]. split; [exact Ex|].
    split; [exact Fl | exact Mono].
Qed.

Lemma set_current_limit_guarded_witness :
  (DualMotor.is_enabled dual_motor_active = true
   /\ exists msg,
       DualMotor.set_current_limit (5 # 2) dual_motor_active
       = (Raised (RuntimeError msg), dual_motor_active, []))
  /\ (DualMotor.is_enabled dual_motor_idle = false
      /\ DualMotor.MAX_CURRENT_LIMIT <= 5 # 2
      /\ result_of (DualMotor.set_current_limit (5 # 2) dual_motor_idle) = Returned tt
      /\ DualMotor.current_limit (state_of (DualMotor.set_current_limit (5 # 2) dual_motor_idle))
         = DualMotor.CURRENT_LIMIT_9
      /\ DualMotor.motors_vref1 (state_of (DualMotor.set_current_limit (5 # 2) dual_motor_idle))
         = mkPin OUT true
      /\ DualMotor.motors_vref2 (state_of (DualMotor.set_current_limit (5 # 2) dual_motor_idle))
         = mkPin OUT true).
Proof.
  split; (split; [reflexivity|]).
  - exact (proj1 (set_current_limit_guarded dual_motor_active (5 # 2)) eq_refl).
  - assert (DualMotor.MAX_CURRENT_LIMIT <= 5 # 2) as Hi by discriminate.
    split; [exact Hi|].
    destruct (proj2 (set_current_limit_guarded dual_motor_idle (5 # 2)) eq_refl)
      as (limit & state & _ & R & L & V1 & V2 & _ & _ & _ & Max & _).
    specialize (Max Hi). injection Max as -> ->.
    split; [exact R|]. split; [exact L|]. split; [exact V1 | exact V2].
Defined.

(** ** Worked values *)

Example select_below_table :
  DualMotor.select (1 # 10) tt = (Returned (DualMotor.CURRENT_LIMIT_1, (0, 0)%Z), tt, []).
Proof. reflexivity. Qed.

Example select_exact_entry :
  DualMotor.select (786 # 1000) tt = (Returned (DualMotor.CURRENT_LIMIT_4, (1, 0)%Z), tt, []).
Proof. reflexivity. Qed.

Example select_between_entries :
  DualMotor.select 1 tt = (Returned (DualMotor.CURRENT_LIMIT_4, (1, 0)%Z), tt, []).
Proof. reflexivity. Qed.

Example select_above_table :
  DualMotor.select 5 tt = (Returned (DualMotor.CURRENT_LIMIT_9, (1, 1)%Z), tt, []).
Proof. reflexivity. Qed.

Example set_current_limit_stores_choice :
  DualMotor.current_limit (state_of (DualMotor.set_current_limit 1 dual_motor_idle))
  = DualMotor.CURRENT_LIMIT_4
  /\ DualMotor.motors_vref1 (state_of (DualMotor.set_current_limit 1 dual_motor_idle))
     = mkPin OUT true
  /\ DualMotor.motors_vref2 (state_of (DualMotor.set_current_limit 1 dual_motor_idle))
     = mkPin OUT false.
Proof. repeat split. Qed.

Example average_of_three :
  DualMotor.avg_temperature
    (state_of
       (DualMotor.process_readings
          (monitor_each [dual_sample 20; dual_sample 30; dual_sample 25]
             (state_of (DualMotor.clear_readings dual_motor_idle)))))
  == 25.
Proof. reflexivity. Qed.

(** * Further properties of the current limit *)

Module SelectorMore.
Import DualMotor.

(** A limit of the table selects its own entry. *)
Lemma chosen_fixed (e : Q * pin_states) :
  In e current_limit_states -> chosen (fst e) = e.
Proof.
  intro I.
  destruct (Selector.chosen_cases (fst e)) as [[_ Lo]|(Ic & Le & U)].
  - destruct (Selector.table_bounds _ I) as [B _]. lra.
  - apply (Selector.ascending_unique _ Selector.current_limit_states_ascending);
      [exact Ic | exact I |].
    pose proof (U e I (Qle_refl _)). lra.
Qed.

Lemma chosen_chosen (amps : Q) : chosen (fst (chosen amps)) = chosen amps.
Proof. apply chosen_fixed, Selector.chosen_in_table. Qed.

(** The nine pin-state pairs are pairwise different. *)
Lemma states_distinct (e e' : Q * pin_states) :
  In e current_limit_states -> In e' current_limit_states -> snd e = snd e' -> e = e'.
Proof.
  unfold current_limit_states. cbn [In]. intros I I'.
  repeat (destruct I as [<-|I]; [|]); try contradiction;
    repeat (destruct I' as [<-|I']; [|]); try contradiction;
    cbn [snd]; intro E; solve [reflexivity | discriminate E].
Qed.

(** Every component of a pin-state pair is [-1], [0] or [1]. *)
Lemma states_range (e : Q * pin_states) :
  In e current_limit_states ->
  (fst (snd e) = -1 \/ fst (snd e) = 0 \/ fst (snd e) = 1)%Z
  /\ (snd (snd e) = -1 \/ snd (snd e) = 0 \/ snd (snd e) = 1)%Z.
Proof.
  unfold current_limit_states. cbn [In]. intro I.
  repeat (destruct I as [<-|I]; [cbn; split; auto|]). contradiction.
Qed.

(** On those three values the pin configuration tells the component. *)
Lemma apply_state_injective (c c' : Z) (p : Pin) :
  (c = -1 \/ c = 0 \/ c = 1)%Z -> (c' = -1 \/ c' = 0 \/ c' = 1)%Z ->
  apply_state c p = apply_state c' p -> c = c'.
Proof.
  intros [-> | [-> | ->]] [-> | [-> | ->]]; cbn; intro E;
    solve [reflexivity | discriminate E].
Qed.

Lemma apply_state_twice (c : Z) (p : Pin) :
  apply_state c (apply_state c p) = apply_state c p.
Proof.
  unfold apply_state. destruct (c =? -1)%Z; [reflexivity|].
  destruct (c =? 0)%Z; reflexivity.
Qed.

End SelectorMore.

(** X1. Selecting at a limit that was selected returns the same entry: the
    selection is idempotent, so [set_current_limit(current_limit())]
    never moves the limit. *)
Theorem select_idempotent :
  forall (S : Type) (s : S) (amps : Q),
  exists e,
    DualMotor.select amps s = (Returned e, s, [])
    /\ DualMotor.select (fst e) s = (Returned e, s, []).
Proof.
  intros S s amps. exists (DualMotor.chosen amps).
  rewrite !Selector.select_returns, SelectorMore.chosen_chosen. split; reflexivity.
Qed.

(** X2. The pins tell the limit: if two calls of [set_current_limit] on the
    same disabled module leave the two reference pins in the same
    configuration, they stored the same limit. *)
Theorem pins_determine_limit :
  forall (s : DualMotor.DualMotorModule) (a b : Q),
    DualMotor.is_enabled s = false ->
    DualMotor.motors_vref1 (state_of (DualMotor.set_current_limit a s))
    = DualMotor.motors_vref1 (state_of (DualMotor.set_current_limit b s)) ->
    DualMotor.motors_vref2 (state_of (DualMotor.set_current_limit a s))
    = DualMotor.motors_vref2 (state_of (DualMotor.set_current_limit b s)) ->
    DualMotor.current_limit (state_of (DualMotor.set_current_limit a s))
    = DualMotor.current_limit (state_of (DualMotor.set_current_limit b s)).
Proof.
  intros s a b E. rewrite !set_current_limit_eq, E.
  pose proof (Selector.chosen_in_table a) as Ia.
  pose proof (Selector.chosen_in_table b) as Ib.
  destruct (SelectorMore.states_range _ Ia) as [Ra1 Ra2].
  destruct (SelectorMore.states_range _ Ib) as [Rb1 Rb2].
  revert Ia Ib Ra1 Ra2 Rb1 Rb2.
  generalize (DualMotor.chosen a) (DualMotor.chosen b).
  intros [la [a1 a2]] [lb [b1 b2]] Ia Ib Ra1 Ra2 Rb1 Rb2. cbn in Ra1, Ra2, Rb1, Rb2 |- *.
  intros V1 V2.
  apply (SelectorMore.apply_state_injective _ _ _ Ra1 Rb1) in V1.
  apply (SelectorMore.apply_state_injective _ _ _ Ra2 Rb2) in V2.
  subst b1 b2.
  exact (f_equal fst (SelectorMore.states_distinct _ _ Ia Ib eq_refl)).
Qed.

Lemma pins_determine_limit_witness :
  DualMotor.current_limit (state_of (DualMotor.set_current_limit 1 dual_motor_idle))
  = DualMotor.current_limit (state_of (DualMotor.set_current_limit (9 # 10) dual_motor_idle)).
Proof.
  apply (pins_determine_limit dual_motor_idle 1 (9 # 10)); reflexivity.
Defined.

(** [reset], spelled out: the enable pin is driven low first, so the
    change of limit that follows is always accepted. *)
Lemma reset_eq (s : DualMotor.DualMotorModule) :
  DualMotor.reset s =
    DualMotor.set_current_limit (DualMotor.current_limit s)
      (DualMotor.set_motors_en (Pin_init_out false (DualMotor.motors_en s)) s).
Proof.
  unfold DualMotor.reset, bind, modify, gets.
  destruct (DualMotor.set_current_limit _ _) as [[r s'] l]. reflexivity.
Qed.

(** Setting the limit to the value just stored changes nothing. *)
Lemma set_stored_limit_again (s : DualMotor.DualMotorModule) (amps : Q) :
  DualMotor.is_enabled s = false ->
  state_of
    (DualMotor.set_current_limit
       (DualMotor.current_limit (state_of (DualMotor.set_current_limit amps s)))
       (state_of (DualMotor.set_current_limit amps s)))
  = state_of (DualMotor.set_current_limit amps s).
Proof.
  intro E. rewrite (set_current_limit_eq amps s), E. cbn [state_of fst snd].
  cbn [DualMotor.current_limit DualMotor.set_current_limit_field].
  rewrite set_current_limit_eq.
  change (DualMotor.is_enabled (DualMotor.set_current_limit_field _ _))
    with (DualMotor.is_enabled s).
  rewrite E. cbn [state_of fst snd].
  rewrite SelectorMore.chosen_chosen.
  unfold DualMotor.set_current_limit_field, DualMotor.set_motors_vref1,
    DualMotor.set_motors_vref2.
  cbn -[DualMotor.chosen DualMotor.apply_state].
  rewrite !SelectorMore.apply_state_twice. reflexivity.
Qed.

(** X3. [set_current_limit] touches nothing but the two reference pins and
    the stored limit: the readings, the sample count and the enable pin are
    as before.  It logs one info line with the stored limit when it
    succeeds and nothing when it raises. *)
Theorem set_current_limit_keeps_readings :
  forall (s : DualMotor.DualMotorModule) (amps : Q),
    get_readings (state_of (DualMotor.set_current_limit amps s)) = get_readings s
    /\ DualMotor.count_avg (state_of (DualMotor.set_current_limit amps s))
       = DualMotor.count_avg s
    /\ DualMotor.motors_en (state_of (DualMotor.set_current_limit amps s))
       = DualMotor.motors_en s
    /\ log_of (DualMotor.set_current_limit amps s)
       = if DualMotor.is_enabled s then []
         else [LogInfo [Txt (DualMotor.message_header s); Txt "Current limit set to ";
                        Flt (DualMotor.current_limit
                               (state_of (DualMotor.set_current_limit amps s)));
                        Txt "A"]].
Proof.
  intros s amps. rewrite set_current_limit_eq.
  destruct (DualMotor.is_enabled s); repeat split.
Qed.

(** X4. After a successful [set_current_limit] the stored limit is one of
    the nine table limits, and setting the limit to the stored value again
    leaves the whole object as it is. *)
Theorem set_current_limit_settles :
  forall (s : DualMotor.DualMotorModule) (amps : Q),
    DualMotor.is_enabled s = false ->
    In (DualMotor.current_limit (state_of (DualMotor.set_current_limit amps s)))
       (map fst DualMotor.current_limit_states)
    /\ state_of
         (DualMotor.set_current_limit
            (DualMotor.current_limit (state_of (DualMotor.set_current_limit amps s)))
            (state_of (DualMotor.set_current_limit amps s)))
       = state_of (DualMotor.set_current_limit amps s).
Proof.
  intros s amps E. split.
  - rewrite (set_current_limit_eq amps s), E. cbn [state_of fst snd].
    cbn [DualMotor.current_limit DualMotor.set_current_limit_field].
    apply (in_map fst). apply Selector.chosen_in_table.
  - apply set_stored_limit_again. exact E.
Qed.

Lemma set_current_limit_settles_witness :
  In (DualMotor.current_limit (state_of (DualMotor.set_current_limit 2 dual_motor_idle)))
     (map fst DualMotor.current_limit_states)
  /\ state_of
       (DualMotor.set_current_limit
          (DualMotor.current_limit (state_of (DualMotor.set_current_limit 2 dual_motor_idle)))
          (state_of (DualMotor.set_current_limit 2 dual_motor_idle)))
     = state_of (DualMotor.set_current_limit 2 dual_motor_idle).
Proof. apply (set_current_limit_settles dual_motor_idle 2). reflexivity. Defined.

(** [reset] in full is [reset] of the module proper, after the motors
    were disabled. *)
Lemma DualMotor_reset_eq (Motor : Type) (Motor_disable : Motor -> Motor)
      (d : DualMotorWithMotors Motor) :
  DualMotor_reset Motor Motor_disable d =
    (result_of (DualMotor.reset (module d)),
     mkWithMotors (state_of (DualMotor.reset (module d))) (init_motors d)
       (if init_motors d then map Motor_disable (motors d) else motors d),
     log_of (DualMotor.reset (module d))).
Proof.
  rewrite reset_eq.
  unfold DualMotor_reset, bind, gets, modify, on_module, ret.
  destruct d as [s i ms]. cbn [module init_motors motors].
  destruct i; cbn [module init_motors motors];
    destruct (DualMotor.set_current_limit _ _) as [[r s'] l]; reflexivity.
Qed.

(** X5. [reset] returns from every state, also from an enabled one: every
    motor object is disabled (when the module holds any), the driver is
    left disabled with the enable pin driven low, the table limit selected
    for the limit that was stored is stored, and a second [reset] leaves
    the module as the first one did. *)
Theorem reset_disables_and_settles :
  forall (Motor : Type) (Motor_disable : Motor -> Motor) (d : DualMotorWithMotors Motor),
    result_of (DualMotor_reset Motor Motor_disable d) = Returned tt
    /\ motors (state_of (DualMotor_reset Motor Motor_disable d))
       = (if init_motors d then map Motor_disable (motors d) else motors d)
    /\ DualMotor.motors_en (module (state_of (DualMotor_reset Motor Motor_disable d)))
       = mkPin OUT false
    /\ DualMotor.is_enabled (module (state_of (DualMotor_reset Motor Motor_disable d)))
       = false
    /\ (exists e,
          DualMotor.select (DualMotor.current_limit (module d)) d = (Returned e, d, [])
          /\ In e DualMotor.current_limit_states
          /\ DualMotor.current_limit
               (module (state_of (DualMotor_reset Motor Motor_disable d)))
             = fst e)
    /\ module
         (state_of
            (DualMotor_reset Motor Motor_disable
               (state_of (DualMotor_reset Motor Motor_disable d))))
       = module (state_of (DualMotor_reset Motor Motor_disable d)).
Proof.
  intros Motor Motor_disable d.
  rewrite (DualMotor_reset_eq Motor Motor_disable (state_of _)).
  rewrite (DualMotor_reset_eq Motor Motor_disable d).
  cbn [state_of result_of fst snd module motors].
  set (s := module d).
  set (s0 := DualMotor.set_motors_en (Pin_init_out false (DualMotor.motors_en s)) s).
  assert (DualMotor.is_enabled s0 = false) as E0 by reflexivity.
  assert (DualMotor.reset s = DualMotor.set_current_limit (DualMotor.current_limit s0) s0)
    as R by exact (reset_eq s).
  pose proof (set_stored_limit_again s0 (DualMotor.current_limit s0) E0) as Again.
  rewrite R.
  rewrite reset_eq.
  revert Again. rewrite (set_current_limit_eq (DualMotor.current_limit s0) s0), E0.
  cbn [state_of result_of fst snd]. intro Again.
  split; [reflexivity|]. split; [reflexivity|]. split; [reflexivity|].
  split; [reflexivity|]. split.
  - exists (DualMotor.chosen (DualMotor.current_limit s)).
    rewrite Selector.select_returns.
    split; [reflexivity|]. split; [apply Selector.chosen_in_table | reflexivity].
  - exact Again.
Qed.

(** X6. The way to change the limit of a running driver: [disable], then
    [set_current_limit], then [enable] returns from every state, stores
    the selected limit and ends enabled; [enable] followed directly by
    [set_current_limit] always raises the [RuntimeError] and changes
    nothing beyond the [enable]. *)
Theorem limit_change_needs_disable :
  forall (s : DualMotor.DualMotorModule) (amps : Q),
    (exists e,
        DualMotor.select amps s = (Returned e, s, [])
        /\ result_of
             ((DualMotor.disable ;; DualMotor.set_current_limit amps ;; DualMotor.enable) s)
           = Returned tt
        /\ DualMotor.is_enabled
             (state_of
                ((DualMotor.disable ;; DualMotor.set_current_limit amps ;; DualMotor.enable) s))
           = true
        /\ DualMotor.current_limit
             (state_of
                ((DualMotor.disable ;; DualMotor.set_current_limit amps ;; DualMotor.enable) s))
           = fst e)
    /\ (exists msg,
          (DualMotor.enable ;; DualMotor.set_current_limit amps) s
          = (Raised (RuntimeError msg), state_of (DualMotor.enable s), [])).
Proof.
  intros s amps. split.
  - exists (DualMotor.chosen amps). rewrite Selector.select_returns.
    split; [reflexivity|].
    unfold bind, DualMotor.disable, DualMotor.enable, modify.
    rewrite set_current_limit_eq.
    cbn -[DualMotor.chosen DualMotor.apply_state]. repeat split.
  - unfold bind, DualMotor.enable, modify.
    rewrite set_current_limit_eq. cbn. eexists. reflexivity.
Qed.

(** * Further properties of the monitor *)

Module DualMotorMore.
Import DualMotor DualMotorFacts.

(** No interval call touches anything but the five aggregates. *)
Lemma dual_perform_frame (c : call sample) (s : DualMotorModule) :
  mkModule (message_header (state_of (perform c s)))
           (monitor_action_callback (state_of (perform c s)))
           (current_limit (state_of (perform c s)))
           (motors_en (state_of (perform c s)))
           (motors_vref1 (state_of (perform c s)))
           (motors_vref2 (state_of (perform c s)))
           false NegInf PosInf 0 0%Z
  = mkModule (message_header s) (monitor_action_callback s) (current_limit s)
             (motors_en s) (motors_vref1 s) (motors_vref2 s) false NegInf PosInf 0 0%Z.
Proof.
  rewrite perform_dual. destruct c as [x| |].
  - rewrite dual_monitor_eq.
    destruct (read_fault x); [reflexivity|].
    destruct (Qgtb _ _); [reflexivity|].
    destruct (callback_raises s x); reflexivity.
  - rewrite dual_process_readings_eq. destruct (count_avg s >? 0)%Z; reflexivity.
  - reflexivity.
Qed.

Lemma dual_after_frame (cs : list (call sample)) (s : DualMotorModule) :
  mkModule (message_header (after cs s)) (monitor_action_callback (after cs s))
           (current_limit (after cs s)) (motors_en (after cs s))
           (motors_vref1 (after cs s)) (motors_vref2 (after cs s))
           false NegInf PosInf 0 0%Z
  = mkModule (message_header s) (monitor_action_callback s) (current_limit s)
             (motors_en s) (motors_vref1 s) (motors_vref2 s) false NegInf PosInf 0 0%Z.
Proof.
  revert s. induction cs as [|c cs IH]; intro s; [reflexivity|].
  cbn [after]. rewrite IH. apply dual_perform_frame.
Qed.

Lemma dual_after_callback (cs : list (call sample)) (s : DualMotorModule) :
  monitor_action_callback (after cs s) = monitor_action_callback s.
Proof. pose proof (dual_after_frame cs s) as F. congruence. Qed.

(** Whether a call returns is decided by the call and the callback. *)
Lemma dual_returns_same_callback (c : call sample) (s s' : DualMotorModule) :
  monitor_action_callback s' = monitor_action_callback s ->
  returns (perform c s') = returns (perform c s).
Proof.
  intro C. rewrite !perform_dual. destruct c as [x| |].
  - rewrite !dual_monitor_eq. unfold callback_raises. rewrite C.
    destruct (read_fault x); [reflexivity|].
    destruct (Qgtb _ _); [reflexivity|].
    destruct (monitor_action_callback s) as [f|]; [|reflexivity].
    destruct (f _ _); reflexivity.
  - rewrite !dual_process_readings_eq.
    destruct (count_avg s' >? 0)%Z, (count_avg s >? 0)%Z; reflexivity.
  - reflexivity.
Qed.

(** A call that does not return changes nothing. *)
Lemma dual_perform_raised (c : call sample) (s : DualMotorModule) :
  returns (perform c s) = false -> state_of (perform c s) = s.
Proof.
  rewrite perform_dual. destruct c as [x| |].
  - unfold returns. destruct (result_of (monitor x s)) eqn:R; [discriminate|].
    intros _. exact (dual_monitor_raised x s e R).
  - rewrite dual_process_readings_eq. destruct (count_avg s >? 0)%Z; discriminate.
  - discriminate.
Qed.

Lemma dual_after_returned_calls (cs : list (call sample)) (s0 s : DualMotorModule) :
  monitor_action_callback s = monitor_action_callback s0 ->
  after cs s = after (returned_calls s0 cs) s.
Proof.
  unfold returned_calls. revert s. induction cs as [|c cs IH]; intros s C; [reflexivity|].
  cbn [after filter]. rewrite <- (dual_returns_same_callback c s0 s C).
  destruct (returns (perform c s)) eqn:R.
  - cbn [after]. apply IH. rewrite <- C. apply (dual_after_callback [c] s).
  - rewrite (dual_perform_raised c s R). apply IH, C.
Qed.

End DualMotorMore.

Module QuadServoRegMore.
Import QuadServoReg QuadServoRegFacts.

Lemma quad_perform_power_en (c : call sample) (s : QuadServoRegModule) :
  power_en (state_of (perform c s)) = power_en s.
Proof.
  rewrite perform_quad. destruct c as [x| |].
  - rewrite quad_monitor_eq.
    destruct (negb _ && _); [reflexivity|].
    destruct (Qgtb _ _); [reflexivity|].
    cbv zeta. destruct (callback_raises s x); reflexivity.
  - rewrite quad_process_readings_eq. destruct (count_avg s >? 0)%Z; reflexivity.
  - reflexivity.
Qed.

Lemma quad_after_power_en (cs : list (call sample)) (s : QuadServoRegModule) :
  power_en (after cs s) = power_en s.
Proof.
  revert s. induction cs as [|c cs IH]; intro s; [reflexivity|].
  cbn [after]. rewrite IH. apply quad_perform_power_en.
Qed.

Lemma same_setup_sym (s s' : QuadServoRegModule) : same_setup s s' -> same_setup s' s.
Proof. unfold same_setup. intros (-> & -> & ->). repeat split. Qed.

Lemma quad_returns_perform_same_setup (c : call sample) (s s' : QuadServoRegModule) :
  same_setup s s' -> returns (perform c s') = returns (perform c s).
Proof.
  intro E. rewrite !perform_quad. destruct c as [x| |].
  - apply returns_same_setup, E.
  - rewrite !quad_process_readings_eq.
    destruct (count_avg s' >? 0)%Z, (count_avg s >? 0)%Z; reflexivity.
  - reflexivity.
Qed.

(** A call that does not return changes nothing. *)
Lemma quad_perform_raised (c : call sample) (s : QuadServoRegModule) :
  returns (perform c s) = false -> state_of (perform c s) = s.
Proof.
  rewrite perform_quad. destruct c as [x| |].
  - unfold returns. destruct (result_of (monitor x s)) eqn:R; [discriminate|].
    intros _. exact (quad_monitor_raised x s e R).
  - rewrite quad_process_readings_eq. destruct (count_avg s >? 0)%Z; discriminate.
  - discriminate.
Qed.

Lemma quad_after_returned_calls (cs : list (call sample)) (s0 s : QuadServoRegModule) :
  same_setup s0 s ->
  after cs s = after (returned_calls s0 cs) s.
Proof.
  unfold returned_calls. revert s. induction cs as [|c cs IH]; intros s E; [reflexivity|].
  cbn [after filter]. rewrite <- (quad_returns_perform_same_setup c s0 s E).
  destruct (returns (perform c s)) eqn:R.
  - cbn [after]. apply IH.
    eapply same_setup_trans; [exact E | apply perform_same_setup].
  - rewrite (quad_perform_raised c s R). apply IH, E.
Qed.

End QuadServoRegMore.

(** X7. Calls that raise are invisible to the object: the state after any
    run of [monitor], [process_readings] and [get_readings] calls is the
    state after the run with its raising calls left out; for both
    modules. *)
Theorem raising_cycles_invisible :
  (forall (s : DualMotor.DualMotorModule) (cs : list (call DualMotor.sample)),
      after cs s = after (returned_calls s cs) s)
  /\ (forall (s : QuadServoReg.QuadServoRegModule) (cs : list (call QuadServoReg.sample)),
      after cs s = after (returned_calls s cs) s).
Proof.
  split; intros s cs.
  - apply DualMotorMore.dual_after_returned_calls. reflexivity.
  - apply QuadServoRegMore.quad_after_returned_calls. apply QuadServoRegFacts.same_setup_refl.
Qed.

(** X8. Monitoring never alters the drive configuration: whatever
    [monitor], [process_readings] and [get_readings] calls are made, and
    whether they raise or not, the enable pin, the stored current limit and
    the reference pins of the dual motor module and the enable pin and
    [halt_on_not_pgood] of the quad servo module are as before. *)
Theorem interval_calls_keep_configuration :
  (forall (s : DualMotor.DualMotorModule) (cs : list (call DualMotor.sample)),
      DualMotor.is_enabled (after cs s) = DualMotor.is_enabled s
      /\ DualMotor.current_limit (after cs s) = DualMotor.current_limit s
      /\ DualMotor.motors_vref1 (after cs s) = DualMotor.motors_vref1 s
      /\ DualMotor.motors_vref2 (after cs s) = DualMotor.motors_vref2 s)
  /\ (forall (s : QuadServoReg.QuadServoRegModule) (cs : list (call QuadServoReg.sample)),
      QuadServoReg.is_enabled (after cs s) = QuadServoReg.is_enabled s
      /\ QuadServoReg.halt_on_not_pgood (after cs s) = QuadServoReg.halt_on_not_pgood s).
Proof.
  split; intros s cs.
  - pose proof (DualMotorMore.dual_after_frame cs s) as F.
    unfold DualMotor.is_enabled. repeat split; congruence.
  - unfold QuadServoReg.is_enabled. rewrite QuadServoRegMore.quad_after_power_en.
    split; [reflexivity|]. apply (QuadServoRegRuns.after_same_setup cs s).
Qed.

(** X9. [clear_readings] forgets the interval.  For the dual motor module
    the object after an interval and [clear_readings] is the object
    [clear_readings] would have left without the interval; for the quad
    servo module the same holds up to [last_pgood], which is kept, so that
    the first cycle of the new interval logs what it would have logged
    without the [clear_readings]. *)
Theorem clear_readings_forgets_interval :
  (forall (s : DualMotor.DualMotorModule) (cs : list (call DualMotor.sample)),
      state_of (clear_readings (after cs s)) = state_of (clear_readings s))
  /\ (forall (s : QuadServoReg.QuadServoRegModule) (cs : list (call QuadServoReg.sample)),
      state_of (clear_readings (after cs s))
      = QuadServoReg.set_last_pgood (QuadServoReg.last_pgood (after cs s))
          (state_of (clear_readings s))
      /\ forall x,
          log_of (monitor x (state_of (clear_readings (after cs s))))
          = log_of (monitor x (after cs s))).
Proof.
  split; intros s cs.
  - change (state_of (DualMotor.clear_readings (after cs s))
            = state_of (DualMotor.clear_readings s)).
    rewrite !DualMotorFacts.dual_clear_readings_eq. cbn [state_of fst snd].
    apply DualMotorMore.dual_after_frame.
  - split.
    + change (state_of (QuadServoReg.clear_readings (after cs s))
              = QuadServoReg.set_last_pgood (QuadServoReg.last_pgood (after cs s))
                  (state_of (QuadServoReg.clear_readings s))).
      rewrite !QuadServoRegFacts.quad_clear_readings_eq. cbn [state_of fst snd].
      destruct (QuadServoRegRuns.after_same_setup cs s) as (H & C & Ha).
      unfold QuadServoReg.set_last_pgood. cbn.
      rewrite H, C, Ha, QuadServoRegMore.quad_after_power_en. reflexivity.
    + intro x.
      change (log_of (QuadServoReg.monitor x
                        (state_of (QuadServoReg.clear_readings (after cs s))))
              = log_of (QuadServoReg.monitor x (after cs s))).
      rewrite !QuadServoRegFacts.quad_monitor_eq.
      rewrite QuadServoRegFacts.quad_clear_readings_eq. cbn [state_of fst snd].
      unfold QuadServoReg.callback_raises.
      cbn [QuadServoReg.halt_on_not_pgood QuadServoReg.message_header
           QuadServoReg.monitor_action_callback QuadServoReg.last_pgood].
      destruct (negb _ && _); [reflexivity|].
      destruct (Qgtb _ _); [reflexivity|].
      cbv zeta. destruct (QuadServoReg.monitor_action_callback (after cs s)) as [f|];
        [|reflexivity].
      destruct (f _ _); reflexivity.
Qed.

(** X10. An interval in which every [monitor] call raised shows the
    neutral readings: from a cleared state, after any run of calls none of
    whose [monitor] calls returns, the object is still the cleared one
    ([process_readings] finds no sample and divides nothing); for both
    modules. *)
Theorem all_raised_interval_neutral :
  (forall (s : DualMotor.DualMotorModule) (cs : list (call DualMotor.sample)),
      (forall x, In (Monitor x) cs -> returns (DualMotor.monitor x s) = false) ->
      after cs (state_of (clear_readings s)) = state_of (clear_readings s))
  /\ (forall (s : QuadServoReg.QuadServoRegModule) (cs : list (call QuadServoReg.sample)),
      (forall x, In (Monitor x) cs -> returns (QuadServoReg.monitor x s) = false) ->
      after cs (state_of (clear_readings s)) = state_of (clear_readings s)).
Proof.
  split; intros s cs; induction cs as [|c cs IH]; intro R; try reflexivity.
  - cbn [after].
    assert (state_of (perform c (state_of (clear_readings s))) = state_of (clear_readings s))
      as ->.
    { destruct c as [x| |]; [|reflexivity..].
      apply DualMotorMore.dual_perform_raised.
      transitivity (returns (perform (Monitor x) s)).
      - apply DualMotorMore.dual_returns_same_callback. reflexivity.
      - apply R. left. reflexivity. }
    apply IH. intros x I. apply R. right. exact I.
  - cbn [after].
    assert (state_of (perform c (state_of (clear_readings s))) = state_of (clear_readings s))
      as ->.
    { destruct c as [x| |]; [|reflexivity..].
      apply QuadServoRegMore.quad_perform_raised.
      transitivity (returns (perform (Monitor x) s)).
      - apply QuadServoRegMore.quad_returns_perform_same_setup. repeat split.
      - apply R. left. reflexivity. }
    apply IH. intros x I. apply R. right. exact I.
Qed.

Lemma all_raised_interval_neutral_witness :
  after [Monitor dual_fault_sample; ProcessReadings; Monitor (dual_sample 90); GetReadings]
        (state_of (clear_readings dual_motor_idle))
  = state_of (clear_readings dual_motor_idle)
  /\ after [Monitor (quad_sample false 40); ProcessReadings; Monitor (quad_sample true 81)]
           (state_of (clear_readings (quad_servo_idle true)))
     = state_of (clear_readings (quad_servo_idle true)).
Proof.
  split.
  - apply (proj1 all_raised_interval_neutral dual_motor_idle).
    intros x [E|[E|[E|[E|[]]]]]; inversion E; reflexivity.
  - apply (proj2 all_raised_interval_neutral (quad_servo_idle true)).
    intros x [E|[E|[E|[]]]]; inversion E; reflexivity.
Defined.

(** The running maximum stays at or below a bound that every sample
    respects. *)
Lemma py_max_bounded (t thr : Q) (m : num) :
  Qgtb t thr = false -> num_gtb m (Fin thr) = false ->
  num_gtb (py_max (Fin t) m) (Fin thr) = false.
Proof.
  intros T M. unfold py_max. destruct (num_gtb m (Fin t)); [exact M | exact T].
Qed.

Lemma dual_perform_max_bounded (c : call DualMotor.sample) (s : DualMotor.DualMotorModule) :
  num_gtb (DualMotor.max_temperature s) (Fin DualMotor.TEMPERATURE_THRESHOLD) = false ->
  num_gtb (DualMotor.max_temperature (state_of (perform c s)))
          (Fin DualMotor.TEMPERATURE_THRESHOLD) = false.
Proof.
  intro B. rewrite perform_dual. destruct c as [x| |].
  - rewrite DualMotorFacts.dual_monitor_eq.
    destruct (DualMotor.read_fault x); [exact B|].
    destruct (Qgtb _ _) eqn:T; [exact B|].
    destruct (DualMotor.callback_raises s x); [exact B|].
    apply py_max_bounded; assumption.
  - rewrite DualMotorFacts.dual_process_readings_eq.
    destruct (DualMotor.count_avg s >? 0)%Z; exact B.
  - exact B.
Qed.

Lemma quad_perform_max_bounded (c : call QuadServoReg.sample)
      (s : QuadServoReg.QuadServoRegModule) :
  num_gtb (QuadServoReg.max_temperature s) (Fin QuadServoReg.TEMPERATURE_THRESHOLD) = false ->
  num_gtb (QuadServoReg.max_temperature (state_of (perform c s)))
          (Fin QuadServoReg.TEMPERATURE_THRESHOLD) = false.
Proof.
  intro B. rewrite perform_quad. destruct c as [x| |].
  - rewrite QuadServoRegFacts.quad_monitor_eq.
    destruct (negb _ && _); [exact B|].
    destruct (Qgtb _ _) eqn:T; [exact B|].
    cbv zeta. destruct (QuadServoReg.callback_raises s x); [exact B|].
    apply py_max_bounded; assumption.
  - rewrite QuadServoRegFacts.quad_process_readings_eq.
    destruct (QuadServoReg.count_avg s >? 0)%Z; exact B.
  - exact B.
Qed.

(** X11. The readings never show a maximum above the threshold: in an
    interval begun by [clear_readings], after any calls, T_max is not
    greater than [TEMPERATURE_THRESHOLD] (70 for the dual motor module, 80
    for the quad servo module), since a hotter sample raises before it is
    aggregated. *)
Theorem maximum_within_threshold :
  (forall (s : DualMotor.DualMotorModule) (cs : list (call DualMotor.sample)),
      exists n,
        reading "T_max" (get_readings (after cs (state_of (clear_readings s))))
        = Some (VNum n)
        /\ num_gtb n (Fin DualMotor.TEMPERATURE_THRESHOLD) = false)
  /\ (forall (s : QuadServoReg.QuadServoRegModule) (cs : list (call QuadServoReg.sample)),
      exists n,
        reading "T_max" (get_readings (after cs (state_of (clear_readings s))))
        = Some (VNum n)
        /\ num_gtb n (Fin QuadServoReg.TEMPERATURE_THRESHOLD) = false).
Proof.
  split; intros s cs.
  - exists (DualMotor.max_temperature (after cs (state_of (clear_readings s)))).
    split; [reflexivity|].
    assert (num_gtb (DualMotor.max_temperature (state_of (clear_readings s)))
              (Fin DualMotor.TEMPERATURE_THRESHOLD) = false) as B by reflexivity.
    revert B. generalize (state_of (clear_readings s)).
    induction cs as [|c cs IH]; intros s0 B; [exact B|].
    cbn [after]. apply IH, dual_perform_max_bounded, B.
  - exists (QuadServoReg.max_temperature (after cs (state_of (clear_readings s)))).
    split; [reflexivity|].
    assert (num_gtb (QuadServoReg.max_temperature (state_of (clear_readings s)))
              (Fin QuadServoReg.TEMPERATURE_THRESHOLD) = false) as B by reflexivity.
    revert B. generalize (state_of (clear_readings s)).
    induction cs as [|c cs IH]; intros s0 B; [exact B|].
    cbn [after]. apply IH, quad_perform_max_bounded, B.
Qed.

(** X12. When [monitor] returns.  Dual motor: exactly when the current
    sense reads above [FAULT_THRESHOLD] (a reading equal to it is a
    fault), the temperature is at or below [TEMPERATURE_THRESHOLD] (a
    temperature equal to it is accepted) and the callback, if any,
    returns.  Quad servo: exactly when power is good or
    [halt_on_not_pgood] is off, the temperature is at or below the
    threshold and the callback, if any, returns. *)
Theorem monitor_returns_iff :
  (forall (s : DualMotor.DualMotorModule) (x : DualMotor.sample),
      returns (DualMotor.monitor x s) = true
      <-> DualMotor.FAULT_THRESHOLD < DualMotor.adc1 x
          /\ DualMotor.adc2_as_temp x <= DualMotor.TEMPERATURE_THRESHOLD
          /\ DualMotor.callback_raises s x = None)
  /\ (forall (s : QuadServoReg.QuadServoRegModule) (x : QuadServoReg.sample),
      returns (QuadServoReg.monitor x s) = true
      <-> (QuadServoReg.power_good_value x = true
           \/ QuadServoReg.halt_on_not_pgood s = false)
          /\ QuadServoReg.adc2_as_temp x <= QuadServoReg.TEMPERATURE_THRESHOLD
          /\ QuadServoReg.callback_raises s x = None).
Proof.
  split; intros s x.
  - rewrite DualMotorFacts.dual_monitor_eq.
    unfold DualMotor.read_fault, DualMotor.read_temperature, Qleb.
    destruct (Qle_bool (DualMotor.adc1 x) DualMotor.FAULT_THRESHOLD) eqn:F.
    + apply Qle_bool_iff in F. split; [discriminate|]. intros (L & _). lra.
    + assert (DualMotor.FAULT_THRESHOLD < DualMotor.adc1 x) as L.
      { apply Qnot_le_lt. intro L. apply Qle_bool_iff in L. congruence. }
      destruct (Qgtb _ _) eqn:T.
      * apply Qgtb_true in T. split; [discriminate|]. intros (_ & Le & _). lra.
      * apply Qgtb_false in T.
        destruct (DualMotor.callback_raises s x).
        -- split; [discriminate|]. intros (_ & _ & C). discriminate.
        -- split; [auto | reflexivity].
  - rewrite QuadServoRegFacts.quad_monitor_eq.
    unfold QuadServoReg.read_power_good, QuadServoReg.read_temperature.
    destruct (QuadServoReg.power_good_value x), (QuadServoReg.halt_on_not_pgood s);
      cbn [negb andb];
      try (split; [discriminate|]; intros ([P|P] & _); discriminate);
      (destruct (Qgtb _ _) eqn:T;
       [ apply Qgtb_true in T; split; [discriminate|]; intros (_ & Le & _); lra
       | apply Qgtb_false in T; cbv zeta;
         destruct (QuadServoReg.callback_raises s x);
         [ split; [discriminate|]; intros (_ & _ & C); discriminate
         | split; [auto | reflexivity] ] ]).
Qed.

(** ** Averages *)

Lemma after_app {S X} `{YukonModule S X} (cs cs' : list (call X)) (s : S) :
  after (cs ++ cs') s = after cs' (after cs s).
Proof.
  revert s. induction cs as [|c cs IH]; intro s; [reflexivity|].
  cbn [app after]. apply IH.
Qed.

(** A run of quiet cycles on an object with no pending sample, then
    [process_readings]: the aggregates it leaves. *)
Lemma dual_cycles_then_process (s : DualMotor.DualMotorModule) (xs : list DualMotor.sample) :
  DualMotor.count_avg s = 0%Z ->
  xs <> [] ->
  Forall (DualMotor.quiet s) xs ->
  DualMotor_statistics (state_of (DualMotor.process_readings (monitor_each xs s)))
  = mkStats
      (fold_left (fun m t => py_max (Fin t) m) (map DualMotor.read_temperature xs)
         (DualMotor.max_temperature s))
      (fold_left (fun m t => py_min (Fin t) m) (map DualMotor.read_temperature xs)
         (DualMotor.min_temperature s))
      (fold_left Qplus (map DualMotor.read_temperature xs) (DualMotor.avg_temperature s)
       / inject_Z (Z.of_nat (List.length xs)))
      0%Z.
Proof.
  intros C N Q.
  destruct (DualMotorRuns.dual_monitor_each_quiet xs s Q) as (_ & _ & St).
  rewrite Stats.fold_accumulate in St.
  cbn [DualMotor_statistics stat_max stat_min stat_sum stat_count] in St.
  rewrite C, length_map in St. cbn [Z.add] in St.
  assert (0 < stat_count (DualMotor_statistics (monitor_each xs s)))%Z as P.
  { rewrite St. cbn [stat_count]. destruct xs; [congruence | cbn [List.length]; lia]. }
  destruct (DualMotorRuns.dual_process_readings_statistics _ P) as [_ ->].
  rewrite St. reflexivity.
Qed.

Lemma quad_cycles_then_process (s : QuadServoReg.QuadServoRegModule)
      (xs : list QuadServoReg.sample) :
  QuadServoReg.count_avg s = 0%Z ->
  xs <> [] ->
  Forall (QuadServoReg.quiet s) xs ->
  QuadServoReg_statistics (state_of (QuadServoReg.process_readings (monitor_each xs s)))
  = mkStats
      (fold_left (fun m t => py_max (Fin t) m) (map QuadServoReg.read_temperature xs)
         (QuadServoReg.max_temperature s))
      (fold_left (fun m t => py_min (Fin t) m) (map QuadServoReg.read_temperature xs)
         (QuadServoReg.min_temperature s))
      (fold_left Qplus (map QuadServoReg.read_temperature xs)
         (QuadServoReg.avg_temperature s)
       / inject_Z (Z.of_nat (List.length xs)))
      0%Z.
Proof.
  intros C N Q.
  destruct (QuadServoRegRuns.quad_monitor_each_quiet xs s Q) as (_ & St).
  rewrite Stats.fold_accumulate in St.
  cbn [QuadServoReg_statistics stat_max stat_min stat_sum stat_count] in St.
  rewrite C, length_map in St. cbn [Z.add] in St.
  assert (0 < stat_count (QuadServoReg_statistics (monitor_each xs s)))%Z as P.
  { rewrite St. cbn [stat_count]. destruct xs; [congruence | cbn [List.length]; lia]. }
  rewrite (QuadServoRegRuns.quad_process_readings_statistics _ P).
  rewrite St. reflexivity.
Qed.

Lemma dual_quiet_same_callback (s s' : DualMotor.DualMotorModule) (xs : list DualMotor.sample) :
  DualMotor.monitor_action_callback s' = DualMotor.monitor_action_callback s ->
  Forall (DualMotor.quiet s) xs -> Forall (DualMotor.quiet s') xs.
Proof.
  intro C. apply Forall_impl. intros x (F & T & R).
  unfold DualMotor.quiet, DualMotor.callback_raises in *. rewrite C. auto.
Qed.

Lemma quad_quiet_same_setup (s s' : QuadServoReg.QuadServoRegModule)
      (xs : list QuadServoReg.sample) :
  QuadServoReg.same_setup s s' ->
  Forall (QuadServoReg.quiet s) xs -> Forall (QuadServoReg.quiet s') xs.
Proof.
  intros (_ & C & H). apply Forall_impl. intros x (F & T & R).
  unfold QuadServoReg.quiet, QuadServoReg.callback_raises in *. rewrite C, H. auto.
Qed.

(** X14. [process_readings] does not begin a new interval.  When quiet
    cycles follow a [process_readings] without a [clear_readings] in
    between, the running sum restarts from the average already computed,
    not from 0: after cycles at t1..tN, [process_readings], cycles at
    u1..uM and [process_readings] again, T_avg is
    ((t1 + ... + tN)/N + u1 + ... + uM) / M; for both modules. *)
Theorem average_carried_without_clear :
  (forall (s : DualMotor.DualMotorModule) (xs ys : list DualMotor.sample),
      xs <> [] -> ys <> [] ->
      Forall (DualMotor.quiet s) xs -> Forall (DualMotor.quiet s) ys ->
      reading "T_avg"
        (get_readings
           (after (map Monitor xs ++ ProcessReadings :: map Monitor ys ++ [ProcessReadings])
                  (state_of (clear_readings s))))
      = Some (VNum (Fin (fold_left Qplus (map DualMotor.read_temperature ys)
                           (sum_of (map DualMotor.read_temperature xs)
                            / inject_Z (Z.of_nat (List.length xs)))
                         / inject_Z (Z.of_nat (List.length ys))))))
  /\ (forall (s : QuadServoReg.QuadServoRegModule) (xs ys : list QuadServoReg.sample),
      xs <> [] -> ys <> [] ->
      Forall (QuadServoReg.quiet s) xs -> Forall (QuadServoReg.quiet s) ys ->
      reading "T_avg"
        (get_readings
           (after (map Monitor xs ++ ProcessReadings :: map Monitor ys ++ [ProcessReadings])
                  (state_of (clear_readings s))))
      = Some (VNum (Fin (fold_left Qplus (map QuadServoReg.read_temperature ys)
                           (sum_of (map QuadServoReg.read_temperature xs)
                            / inject_Z (Z.of_nat (List.length xs)))
                         / inject_Z (Z.of_nat (List.length ys)))))).
Proof.
  split; intros s xs ys Nx Ny Qx Qy.
  - rewrite after_app. cbn [after]. rewrite after_app. cbn [after].
    rewrite !perform_dual.
    change (after (map Monitor xs) (state_of (clear_readings s)))
      with (monitor_each xs (state_of (DualMotor.clear_readings s))).
    pose proof (dual_cycles_then_process (state_of (DualMotor.clear_readings s)) xs
                  eq_refl Nx (DualMotorRuns.dual_quiet_clear s xs Qx)) as St1.
    set (s2 := state_of (DualMotor.process_readings
                 (monitor_each xs (state_of (DualMotor.clear_readings s))))) in *.
    assert (DualMotor.monitor_action_callback s2 = DualMotor.monitor_action_callback s) as C.
    { pose proof (DualMotorMore.dual_after_callback (map Monitor xs ++ [ProcessReadings])
                    (state_of (DualMotor.clear_readings s))) as H.
      rewrite after_app in H. exact H. }
    assert (DualMotor.count_avg s2 = 0%Z) as C0
      by exact (f_equal stat_count St1).
    pose proof (dual_cycles_then_process s2 ys C0 Ny
                  (dual_quiet_same_callback s s2 ys C Qy)) as St2.
    change (after (map Monitor ys) s2) with (monitor_each ys s2).
    change (get_readings ?x) with (DualMotor.get_readings x).
    rewrite DualMotorRuns.dual_get_readings_statistics, St2. cbn [stat_sum].
    change (DualMotor.avg_temperature s2) with (stat_sum (DualMotor_statistics s2)).
    rewrite St1. reflexivity.
  - rewrite after_app. cbn [after]. rewrite after_app. cbn [after].
    rewrite !perform_quad.
    change (after (map Monitor xs) (state_of (clear_readings s)))
      with (monitor_each xs (state_of (QuadServoReg.clear_readings s))).
    pose proof (quad_cycles_then_process (state_of (QuadServoReg.clear_readings s)) xs
                  eq_refl Nx (QuadServoRegRuns.quad_quiet_clear s xs Qx)) as St1.
    set (s2 := state_of (QuadServoReg.process_readings
                 (monitor_each xs (state_of (QuadServoReg.clear_readings s))))) in *.
    assert (QuadServoReg.same_setup s s2) as C.
    { apply (QuadServoRegFacts.same_setup_trans s (state_of (QuadServoReg.clear_readings s))).
      - repeat split.
      - pose proof (QuadServoRegRuns.after_same_setup (map Monitor xs ++ [ProcessReadings])
                      (state_of (QuadServoReg.clear_readings s))) as H.
        rewrite after_app in H. exact H. }
    assert (QuadServoReg.count_avg s2 = 0%Z) as C0
      by exact (f_equal stat_count St1).
    pose proof (quad_cycles_then_process s2 ys C0 Ny
                  (quad_quiet_same_setup s s2 ys C Qy)) as St2.
    change (after (map Monitor ys) s2) with (monitor_each ys s2).
    change (get_readings ?x) with (QuadServoReg.get_readings x).
    rewrite QuadServoRegRuns.quad_get_readings_statistics, St2. cbn [stat_sum].
    change (QuadServoReg.avg_temperature s2) with (stat_sum (QuadServoReg_statistics s2)).
    rewrite St1. reflexivity.
Qed.

Lemma average_carried_without_clear_witness :
  reading "T_avg"
    (get_readings
       (after (map Monitor [dual_sample 20; dual_sample 30]
               ++ ProcessReadings :: map Monitor [dual_sample 40] ++ [ProcessReadings])
              (state_of (clear_readings dual_motor_idle))))
  = Some (VNum (Fin (fold_left Qplus (map DualMotor.read_temperature [dual_sample 40])
                       (sum_of (map DualMotor.read_temperature [dual_sample 20; dual_sample 30])
                        / inject_Z (Z.of_nat (List.length [dual_sample 20; dual_sample 30])))
                     / inject_Z (Z.of_nat (List.length [dual_sample 40]))))).
Proof.
  apply (proj1 average_carried_without_clear dual_motor_idle
           [dual_sample 20; dual_sample 30] [dual_sample 40]);
    try discriminate; repeat constructor; discriminate.
Defined.

(** ** Power warnings *)

Lemma transitions_alternating (last : bool) (obs : list bool) :
  alternating last (QuadServoReg.transitions last obs) = true.
Proof.
  revert last. induction obs as [|b obs IH]; intro last; [reflexivity|].
  cbn [QuadServoReg.transitions].
  destruct (Bool.eqb last b) eqn:E.
  - apply Bool.eqb_prop in E. subst. apply IH.
  - cbn [alternating]. rewrite E, IH. reflexivity.
Qed.

Lemma transitions_length (last : bool) (obs : list bool) :
  (List.length (QuadServoReg.transitions last obs) <= List.length obs)%nat.
Proof.
  revert last. induction obs as [|b obs IH]; intro last; [apply le_n|].
  cbn [QuadServoReg.transitions]. destruct (Bool.eqb last b); cbn [List.length];
    specialize (IH b); lia.
Qed.

(** X15. The power warnings of a run of returning cycles alternate: the log
    is a list of warnings "Power is good" / "Power is not good" in which no
    two neighbours are the same, the first one reports a condition other
    than [last_pgood], and there are at most as many as cycles. *)
Theorem power_warnings_alternate :
  forall (s : QuadServoReg.QuadServoRegModule) (xs : list QuadServoReg.sample),
    all_return (map Monitor xs) s = true ->
    exists conditions,
      logged (map Monitor xs) s
      = map (QuadServoReg.power_warning (QuadServoReg.message_header s)) conditions
      /\ alternating (QuadServoReg.last_pgood s) conditions = true
      /\ (List.length conditions <= List.length xs)%nat.
Proof.
  intros s xs R.
  exists (QuadServoReg.transitions (QuadServoReg.last_pgood s)
            (map QuadServoReg.read_power_good xs)).
  split; [apply QuadServoRegRuns.logged_transitions, R|].
  split; [apply transitions_alternating|].
  rewrite <- (length_map QuadServoReg.read_power_good xs). apply transitions_length.
Qed.

Lemma power_warnings_alternate_witness :
  exists conditions,
    logged
      (map Monitor [quad_sample true 40; quad_sample false 41; quad_sample false 42;
                    quad_sample true 43])
      (quad_servo_idle false)
    = map (QuadServoReg.power_warning
             (QuadServoReg.message_header (quad_servo_idle false))) conditions
    /\ alternating (QuadServoReg.last_pgood (quad_servo_idle false)) conditions = true
    /\ (List.length conditions
        <= List.length [quad_sample true 40; quad_sample false 41; quad_sample false 42;
                        quad_sample true 43])%nat.
Proof.
  apply (power_warnings_alternate (quad_servo_idle false)
           [quad_sample true 40; quad_sample false 41; quad_sample false 42;
            quad_sample true 43]).
  reflexivity.
Defined.

Lemma halting_perform (c : call QuadServoReg.sample) (s : QuadServoReg.QuadServoRegModule) :
  QuadServoReg.halt_on_not_pgood s = true ->
  QuadServoReg.power_good_throughout (state_of (perform c s))
  = QuadServoReg.power_good_throughout s
  /\ Forall (fun l => l = LogWarn [Txt (QuadServoReg.message_header s); Txt "Power is good"])
            (log_of (perform c s)).
Proof.
  intro H. rewrite perform_quad. destruct c as [x| |].
  - rewrite QuadServoRegFacts.quad_monitor_eq, H.
    destruct (QuadServoReg.read_power_good x); cbn [negb andb];
      [|split; [reflexivity | constructor]].
    destruct (Qgtb _ _); [split; [reflexivity | constructor]|].
    cbv zeta.
    assert (Forall (fun l => l = LogWarn [Txt (QuadServoReg.message_header s);
                                          Txt "Power is good"])
              (if Bool.eqb (QuadServoReg.last_pgood s) true then []
               else [QuadServoReg.power_warning (QuadServoReg.message_header s) true])) as W.
    { destruct (Bool.eqb _ _); repeat constructor. }
    destruct (QuadServoReg.callback_raises s x); (split; [|exact W]).
    + reflexivity.
    + cbn. apply andb_true_r.
  - rewrite QuadServoRegFacts.quad_process_readings_eq.
    destruct (QuadServoReg.count_avg s >? 0)%Z; split; (reflexivity || constructor).
  - split; [reflexivity | constructor].
Qed.

(** X16. With [halt_on_not_pgood] set the quad servo module never reports
    power not good other than by raising: whatever calls are made, ["PGood"]
    keeps the value it had (true in an interval begun by
    [clear_readings]) and every line logged is the warning
    "Power is good". *)
Theorem halting_module_never_reports_not_good :
  forall (s : QuadServoReg.QuadServoRegModule) (cs : list (call QuadServoReg.sample)),
    QuadServoReg.halt_on_not_pgood s = true ->
    reading "PGood" (get_readings (after cs s)) = reading "PGood" (get_readings s)
    /\ reading "PGood" (get_readings (after cs (state_of (clear_readings s))))
       = Some (VBool true)
    /\ Forall (fun l => l = LogWarn [Txt (QuadServoReg.message_header s);
                                     Txt "Power is good"])
              (logged cs s).
Proof.
  intros s cs H.
  assert (forall s0, QuadServoReg.same_setup s s0 ->
            QuadServoReg.power_good_throughout (after cs s0)
            = QuadServoReg.power_good_throughout s0
            /\ Forall (fun l => l = LogWarn [Txt (QuadServoReg.message_header s);
                                             Txt "Power is good"])
                      (logged cs s0)) as G.
  { induction cs as [|c cs IH]; intros s0 E; [split; [reflexivity | constructor]|].
    cbn [after logged].
    assert (QuadServoReg.halt_on_not_pgood s0 = true) as H0.
    { destruct E as (_ & _ & ->). exact H. }
    destruct (halting_perform c s0 H0) as [P L].
    destruct (IH (state_of (perform c s0))) as [P' L'].
    { eapply QuadServoRegFacts.same_setup_trans;
        [exact E | apply QuadServoRegFacts.perform_same_setup]. }
    split; [congruence|].
    apply Forall_app. split; [|exact L'].
    destruct E as (Eh & _ & _). rewrite Eh in L. exact L. }
  split; [|split].
  - rewrite !reading_PGood. f_equal. f_equal.
    apply (G s), QuadServoRegFacts.same_setup_refl.
  - rewrite reading_PGood.
    change (state_of (clear_readings s)) with (state_of (QuadServoReg.clear_readings s)).
    destruct (G (state_of (QuadServoReg.clear_readings s))) as [-> _];
      [repeat split | reflexivity].
  - apply (G s), QuadServoRegFacts.same_setup_refl.
Qed.

Lemma halting_module_never_reports_not_good_witness :
  reading "PGood"
    (get_readings
       (after [Monitor (quad_sample true 40); Monitor (quad_sample false 41);
               Monitor (quad_sample true 42)]
              (state_of (clear_readings (quad_servo_idle true)))))
  = Some (VBool true)
  /\ Forall (fun l => l = LogWarn [Txt (QuadServoReg.message_header (quad_servo_idle true));
                                   Txt "Power is good"])
            (logged [Monitor (quad_sample true 40); Monitor (quad_sample false 41);
                     Monitor (quad_sample true 42)]
                    (quad_servo_idle true)).
Proof.
  apply (halting_module_never_reports_not_good (quad_servo_idle true)
           [Monitor (quad_sample true 40); Monitor (quad_sample false 41);
            Monitor (quad_sample true 42)]).
  reflexivity.
Defined.

(** ** Identification *)

(** X17. No slot is identified as both modules: when [is] tells apart
    [IO_LOW] and [IO_HIGH], [DualMotorModule.is_module] and
    [QuadServoRegModule.is_module] never both accept the same levels (the
    first wants SLOW2 low, the second wants it high). *)
Theorem is_module_exclusive :
  forall (adc io : Type) (adc_eq : adc -> adc -> bool) (io_is : io -> io -> bool)
         (ADC_HIGH : adc) (IO_LOW IO_HIGH : io),
    (forall a b, io_is a b = true <-> a = b) ->
    IO_LOW <> IO_HIGH ->
    forall (adc1_level adc2_level : adc) (slow1 slow2 slow3 : io),
      DualMotor_is_module adc io adc_eq io_is ADC_HIGH IO_LOW IO_HIGH
        adc1_level adc2_level slow1 slow2 slow3
      && QuadServoReg_is_module adc io adc_eq io_is ADC_HIGH IO_LOW IO_HIGH
           adc1_level adc2_level slow1 slow2 slow3
      = false.
Proof.
  intros adc io adc_eq io_is ADC_HIGH IO_LOW IO_HIGH Is D a1 a2 s1 s2 s3.
  unfold DualMotor_is_module, QuadServoReg_is_module.
  destruct (io_is s2 IO_LOW) eqn:L, (io_is s2 IO_HIGH) eqn:Hi.
  - apply Is in L. apply Is in Hi. congruence.
  - rewrite !andb_false_r. reflexivity.
  - rewrite !andb_false_r. reflexivity.
  - rewrite !andb_false_r. reflexivity.
Qed.

Lemma is_module_exclusive_witness :
  false <> true
  /\ DualMotor_is_module Z bool Z.eqb Bool.eqb 1%Z false true 1%Z 0%Z false false true
     && QuadServoReg_is_module Z bool Z.eqb Bool.eqb 1%Z false true 1%Z 0%Z false false true
     = false.
Proof.
  split; [discriminate|].
  apply (is_module_exclusive Z bool Z.eqb Bool.eqb 1%Z false true).
  - intros a b. split; [apply Bool.eqb_prop | intros ->; apply Bool.eqb_reflx].
  - discriminate.
Defined.
